(** * poopee-toiletverse-vibes: board renderer and admin user directory

    A shallow embedding of

    - [src/components/dashboard/sections/poopee-crush/game/EnhancedGameBoard.tsx]
      (module [Board]), and
    - [src/components/admin/sections/user-management/useUserManagement.ts]
      (module [Directory]),

    followed by the properties of the two components.

    Conventions.  A JavaScript value that may be [null] or [undefined] is an
    [option]; a [number] used as a grid coordinate is a [Z]; a string is a
    [string] and [===] on strings is [String.eqb].  A function that can raise
    returns a sum with an explicit "threw" case.  The collaborators of the
    hook (auth client, remote store, query cache, toast sink, console) are a
    world that the code runs against: what they answer is an input, what the
    code asks of them is recorded in a chronological trace. *)

From Stdlib Require Import String Ascii List ZArith Bool Lia DecimalString.
From Stdlib Require Import DecimalPos DecimalZ.
Import ListNotations.

Local Open Scope string_scope.
Local Open Scope Z_scope.

(** ** JavaScript helpers shared by both components *)

(** [a || b] where [a] is a string or [undefined]: the empty string is falsy. *)
Definition js_or_string (a : option string) (b : string) : string :=
  match a with
  | Some s => if (s =? "")%string then b else s
  | None => b
  end.

(** Template-literal rendering of an integer-valued number. *)
Definition show_number (n : Z) : string :=
  NilZero.string_of_int (Z.to_int n).

(** [xs.map((x, i) => f(i, x))], the index counted from [i]. *)
Fixpoint mapi_from {A B : Type} (i : Z) (f : Z -> A -> B) (xs : list A) : list B :=
  match xs with
  | [] => []
  | x :: rest => f i x :: mapi_from (i + 1) f rest
  end.

(** [xs[i]] for an integer index: [undefined] out of range. *)
Definition js_index {A : Type} (xs : list A) (i : Z) : option A :=
  if i <? 0 then None else nth_error xs (Z.to_nat i).

(** Class names are separated by blanks; [class_tokens] splits a [className]
    attribute the way the browser does, and [has_class] asks for one name. *)
Fixpoint split_blank (cur : string) (s : string) : list string :=
  match s with
  | EmptyString => match cur with EmptyString => [] | _ => [cur] end
  | String c rest =>
      if Ascii.eqb c " "%char
      then match cur with
           | EmptyString => split_blank EmptyString rest
           | _ => cur :: split_blank EmptyString rest
           end
      else split_blank (cur ++ String c EmptyString) rest
  end.

Definition class_tokens (s : string) : list string := split_blank EmptyString s.

Definition has_class (name : string) (className : string) : bool :=
  existsb (String.eqb name) (class_tokens className).

(** ** The board renderer *)

Module Board.

(** Modelled from the spec: the enumeration [TileType] is declared in
    [EnhancedTileTypes], which is not part of the sources; its members are
    the ones this component names, and [OTHER] stands for any member it does
    not name (the [default] arm of the glyph switch). *)
Inductive TileType : Type :=
| POOP | TOILET | TOILET_PAPER | FART | BANANA | BELL
| STRIPED_HORIZONTAL | STRIPED_VERTICAL | WRAPPED | COLOR_BOMB
| BLOCKED | EMPTY
| OTHER (tag : nat).

Definition tile_eqb (a b : TileType) : bool :=
  match a, b with
  | POOP, POOP | TOILET, TOILET | TOILET_PAPER, TOILET_PAPER
  | FART, FART | BANANA, BANANA | BELL, BELL
  | STRIPED_HORIZONTAL, STRIPED_HORIZONTAL
  | STRIPED_VERTICAL, STRIPED_VERTICAL
  | WRAPPED, WRAPPED | COLOR_BOMB, COLOR_BOMB
  | BLOCKED, BLOCKED | EMPTY, EMPTY => true
  | OTHER n, OTHER m => Nat.eqb n m
  | _, _ => false
  end.

(** [{row, col}] *)
Record Pos : Type := mkPos { row : Z; col : Z }.

(** Modelled from the spec: [AnimationEvent] is declared in
    [EnhancedGameEngine], which is not part of the sources; the fields are
    the ones the component reads.  [type] stays a string so that every kind,
    known or not, is covered; the multiplier is kept as the text that
    [toFixed(1)] prints for it. *)
Record AnimationEvent : Type := mkAnim {
  id : string;
  type : string;
  tiles : option (list Pos);
  cascadeMultiplier : option string
}.

(** What a click on a cell does. *)
Inductive ClickOutcome : Type :=
| Swallowed
| Forwarded (r c : Z)      (* onTileClick(r, c) *)
| ClickThrew.              (* TypeError *)

Record Cell : Type := mkCell {
  key : string;
  className : string;
  onClick : ClickOutcome;
  title : string;
  glyph : string
}.

Inductive FooterLine : Type :=
| CascadeLine (text : string)
| MatchLine
| InvalidLine
| BlankLine.

Inductive View : Type :=
| Loading
| Grid (gridClass : string) (cells : list (list Cell))
       (footer : option (list (string * FooterLine))).

Inductive Rendered : Type :=
| Threw
| Returned (v : View).

Definition getTileEmoji (tile : TileType) : string :=
  match tile with
  | POOP => "💩"
  | TOILET => "🚽"
  | TOILET_PAPER => "🧻"
  | FART => "💨"
  | BANANA => "🍌"
  | BELL => "🔔"
  | STRIPED_HORIZONTAL => "💩⚡"
  | STRIPED_VERTICAL => "💩⬆️"
  | WRAPPED => "💩💥"
  | COLOR_BOMB => "💩🌈"
  | BLOCKED => "🚫"
  | EMPTY => ""
  | OTHER _ => "💩"
  end.

(** The [switch] of [getAnimationClasses]. *)
Definition animationEffect (kind : string) : string :=
  if (kind =? "match")%string then "animate-ping "
  else if (kind =? "drop")%string then "animate-bounce "
  else if (kind =? "invalid")%string then "animate-pulse "
  else "".

Section Component.

(** The props, and the result of [useIsMobile]. *)
Variable board : option (list (option (list TileType))).
Variable selectedTile : option Pos.
Variable hintTiles : list Pos.
Variable animations : option (list AnimationEvent).
Variable isMobile : bool.

Definition isSelected (r c : Z) : bool :=
  match selectedTile with
  | Some s => (row s =? r) && (col s =? c)
  | None => false
  end.

Definition isHinted (r c : Z) : bool :=
  existsb (fun hint => (row hint =? r) && (col hint =? c)) hintTiles.

Definition getTileClassName (r c : Z) (tile : TileType) : string :=
  let baseSize := if isMobile then "w-10 h-10" else "w-12 h-12" in
  let textSize := if isMobile then "text-xl" else "text-2xl" in
  let className :=
    baseSize ++ " flex items-center justify-center " ++ textSize ++
    " rounded-lg border-2 cursor-pointer transition-all duration-200 " in
  let className :=
    if isSelected r c then
      className ++ "border-yellow-400 bg-yellow-900/50 shadow-lg shadow-yellow-500/50 "
    else if isHinted r c then
      className ++ "border-green-400 bg-green-900/30 animate-pulse "
    else if tile_eqb tile BLOCKED then
      className ++ "border-gray-600 bg-gray-800 cursor-not-allowed "
    else if tile_eqb tile EMPTY then
      className ++ "border-gray-700 bg-gray-900/30 cursor-default "
    else
      className ++ "border-gray-600 bg-gray-800/50 hover:bg-gray-700/50 hover:border-gray-500 " in
  let className :=
    if tile_eqb tile STRIPED_HORIZONTAL || tile_eqb tile STRIPED_VERTICAL then
      className ++ "shadow-lg shadow-blue-500/30 "
    else if tile_eqb tile WRAPPED then
      className ++ "shadow-lg shadow-purple-500/30 "
    else if tile_eqb tile COLOR_BOMB then
      className ++ "shadow-lg shadow-rainbow animate-pulse "
    else className in
  className.

(** [board[row][col]]: indexing [null] or [undefined] raises; a tile that
    is [undefined] is neither blocked nor empty. *)
Definition handleTileClick (r c : Z) : ClickOutcome :=
  match board with
  | None => ClickThrew
  | Some rows =>
      match js_index rows r with
      | Some (Some cells) =>
          match js_index cells c with
          | Some BLOCKED | Some EMPTY => Swallowed
          | _ => Forwarded r c
          end
      | _ => ClickThrew
      end
  end.

Definition covers (r c : Z) (anim : AnimationEvent) : bool :=
  match tiles anim with
  | None => false
  | Some ts => existsb (fun tile => (row tile =? r) && (col tile =? c)) ts
  end.

Definition getAnimationClasses (r c : Z) : string :=
  match animations with
  | None => ""
  | Some anims =>
      if (length anims =? 0)%nat then "" else
      let relevantAnimations := filter (covers r c) anims in
      if (length relevantAnimations =? 0)%nat then "" else
      match nth_error relevantAnimations (length relevantAnimations - 1) with
      | Some latestAnimation => animationEffect (type latestAnimation)
      | None => ""
      end
  end.

Definition renderCell (rowIndex colIndex : Z) (tile : TileType) : Cell :=
  {| key := show_number rowIndex ++ "-" ++ show_number colIndex;
     className := getTileClassName rowIndex colIndex tile ++ " " ++
                  getAnimationClasses rowIndex colIndex;
     onClick := handleTileClick rowIndex colIndex;
     title := "Row " ++ show_number (rowIndex + 1) ++ ", Col " ++
              show_number (colIndex + 1);
     glyph := getTileEmoji tile |}.

(** [board.map((row, rowIndex) => row.map(...))]: a row that is [null]
    makes [row.map] raise. *)
Fixpoint renderRows (rowIndex : Z) (rows : list (option (list TileType)))
  : option (list (list Cell)) :=
  match rows with
  | [] => Some []
  | None :: _ => None
  | Some r :: rest =>
      match renderRows (rowIndex + 1) rest with
      | Some out => Some (mapi_from 0 (renderCell rowIndex) r :: out)
      | None => None
      end
  end.

Definition footerLine (anim : AnimationEvent) : string * FooterLine :=
  (id anim,
   if (type anim =? "cascade")%string then
     CascadeLine ("🔄 Cascade x" ++ js_or_string (cascadeMultiplier anim) "1")
   else if (type anim =? "match")%string then MatchLine
   else if (type anim =? "invalid")%string then InvalidLine
   else BlankLine).

Definition renderFooter : option (list (string * FooterLine)) :=
  match animations with
  | None => None
  | Some anims =>
      if (0 <? length anims)%nat then Some (map footerLine anims) else None
  end.

(** The guard [!board || board.length === 0 || !board[0] ||
    board[0].length === 0] comes first; the grid is built after it. *)
Definition EnhancedGameBoard : Rendered :=
  match board with
  | None => Returned Loading
  | Some rows =>
      if (length rows =? 0)%nat then Returned Loading else
      match nth_error rows 0 with
      | None | Some None => Returned Loading
      | Some (Some first) =>
          if (length first =? 0)%nat then Returned Loading else
          let gridGap := if isMobile then "gap-2" else "gap-1" in
          let containerPadding := if isMobile then "p-2" else "p-4" in
          match renderRows 0 rows with
          | None => Threw
          | Some cells =>
              Returned
                (Grid ("grid grid-cols-8 " ++ gridGap ++ " " ++ containerPadding ++
                       " bg-gray-900/30 rounded-lg border border-gray-700")
                      cells renderFooter)
          end
      end
  end.

End Component.

(** *** Reading a rendered cell

    What a viewer can tell from a cell's [className]: each base visual state
    has a class name that no other state and no accent or effect uses. *)

Inductive VisualState : Type :=
| Selected | Hinted | Blocked | Empty | Ordinary.

(** The precedence order, highest first. *)
Definition precedence : list VisualState :=
  [Selected; Hinted; Blocked; Empty; Ordinary].

Definition marker (st : VisualState) : string :=
  match st with
  | Selected => "border-yellow-400"
  | Hinted => "border-green-400"
  | Blocked => "cursor-not-allowed"
  | Empty => "cursor-default"
  | Ordinary => "hover:border-gray-500"
  end.

(** The base states a [className] shows. *)
Definition shown_states (cls : string) : list VisualState :=
  filter (fun st => has_class (marker st) cls) precedence.

(** When a state applies to the cell [(r, c)] holding [tile]. *)
Definition applicable (selectedTile : option Pos) (hintTiles : list Pos)
           (r c : Z) (tile : TileType) (st : VisualState) : bool :=
  match st with
  | Selected => isSelected selectedTile r c
  | Hinted => isHinted hintTiles r c
  | Blocked => tile_eqb tile BLOCKED
  | Empty => tile_eqb tile EMPTY
  | Ordinary => true
  end.

(** The highest state of the precedence order that applies. *)
Definition highest_applicable (selectedTile : option Pos) (hintTiles : list Pos)
           (r c : Z) (tile : TileType) : option VisualState :=
  find (applicable selectedTile hintTiles r c tile) precedence.

(** The size and spacing constants of the two presentation modes. *)
Definition densityPrefix (isMobile : bool) : string :=
  (if isMobile then "w-10 h-10" else "w-12 h-12") ++
  " flex items-center justify-center " ++
  (if isMobile then "text-xl" else "text-2xl") ++
  " rounded-lg border-2 cursor-pointer transition-all duration-200 ".

Definition densityGrid (isMobile : bool) : string :=
  "grid grid-cols-8 " ++ (if isMobile then "gap-2 p-2" else "gap-1 p-4") ++
  " bg-gray-900/30 rounded-lg border border-gray-700".

(** Two cells that differ in the density constants only. *)
Definition same_logic (mobile desktop : Cell) : Prop :=
  key mobile = key desktop /\
  title mobile = title desktop /\
  glyph mobile = glyph desktop /\
  onClick mobile = onClick desktop /\
  shown_states (className mobile) = shown_states (className desktop) /\
  exists rest : string,
    className mobile = densityPrefix true ++ rest /\
    className desktop = densityPrefix false ++ rest.

Definition same_logic_view (mobile desktop : Rendered) : Prop :=
  match mobile, desktop with
  | Threw, Threw => True
  | Returned Loading, Returned Loading => True
  | Returned (Grid g1 cells1 footer1), Returned (Grid g2 cells2 footer2) =>
      g1 = densityGrid true /\ g2 = densityGrid false /\
      footer1 = footer2 /\
      Forall2 (Forall2 same_logic) cells1 cells2
  | _, _ => False
  end.

(** *** Vocabulary of the further properties *)

(** The kinds the component names. *)
Definition named (t : TileType) : bool :=
  match t with
  | OTHER _ => false
  | _ => true
  end.

(** The boards the guard of the component turns away. *)
Definition degenerate (board : option (list (option (list TileType)))) : bool :=
  match board with
  | None => true
  | Some [] => true
  | Some (None :: _) => true
  | Some (Some [] :: _) => true
  | Some (Some (_ :: _) :: _) => false
  end.

Definition hasNullRow (board : option (list (option (list TileType)))) : bool :=
  match board with
  | None => false
  | Some rows =>
      existsb (fun r => match r with None => true | Some _ => false end) rows
  end.

(** The tile of a board and the cell of a grid at row [i], column [j]. *)
Definition tileAt (board : option (list (option (list TileType)))) (i j : nat)
  : option TileType :=
  match board with
  | None => None
  | Some rows =>
      match nth_error rows i with
      | Some (Some r) => nth_error r j
      | _ => None
      end
  end.

Definition cellAt (cells : list (list Cell)) (i j : nat) : option Cell :=
  match nth_error cells i with
  | Some r => nth_error r j
  | None => None
  end.

(** The grid a render shows, if it shows one. *)
Definition gridOf (r : Rendered) : option (list (list Cell)) :=
  match r with
  | Returned (Grid _ cells _) => Some cells
  | _ => None
  end.

(** Whether a character occurs in a string. *)
Fixpoint mentions (ch : ascii) (s : string) : bool :=
  match s with
  | EmptyString => false
  | String c rest => Ascii.eqb c ch || mentions ch rest
  end.

End Board.

(** ** The admin user directory hook *)

Module Directory.

(** An error object: [new Error(msg)] or the error of the remote client.
    Only [message] is ever read, and it may be missing. *)
Record JsError : Type := mkError { message : option string }.

Definition Error (msg : string) : JsError := {| message := Some msg |}.

(** The [{ data, error }] pair every remote read resolves to. *)
Record Response (A : Type) : Type := mkResponse {
  data : option A;
  error : option JsError
}.
Arguments mkResponse {A} _ _.
Arguments data {A} _.
Arguments error {A} _.

(** Rows, with the columns each [select] asks for. *)
Record Profile : Type := mkProfile {
  profile_id : string;
  profile_username : string;
  profile_full_name : string;
  profile_created_at : string
}.

Record Role : Type := mkRole { role_user_id : string; role_role : string }.

Record Credit : Type := mkCredit { credit_user_id : string; credit_balance : Z }.

Record Social : Type := mkSocial {
  social_user_id : string;
  social_platform : string;
  social_username : string;
  social_verified : bool
}.

Record Wallet : Type := mkWallet {
  wallet_user_id : string;
  wallet_blockchain : string;
  wallet_address : string;
  wallet_name : string;
  wallet_is_primary : bool
}.

Record Ban : Type := mkBan {
  ban_user_id : string;
  ban_reason : string;
  ban_banned_at : string;
  ban_is_active : bool
}.

(** The merged record: [{...profile, user_roles, user_credits,
    social_accounts, wallets, ban_info}]. *)
Record MergedUser : Type := mkMerged {
  profile : Profile;
  user_roles : list Role;
  user_credits : list Credit;
  social_accounts : list Social;
  wallets : list Wallet;
  ban_info : option Ban
}.

(** Modelled from the spec: the auth collaborators ([useUnifiedAuth], the
    session of the remote client) are not part of the sources; the hook only
    reads the caller's [id] and tests the session for presence. *)
Record UnifiedUser : Type := mkUser { user_id : string }.

Record Session : Type := mkSession { access_token : string }.

(** What the collaborators answer during one run. *)
Record Remote : Type := mkRemote {
  session : option Session;
  profilesResp : Response (list Profile);
  rolesResp : Response (list Role);
  creditsResp : Response (list Credit);
  socialResp : Response (list Social);
  walletsResp : Response (list Wallet);
  bansResp : Response (list Ban);
  writeError : option JsError;       (* the [{ error }] of the write *)
  clock : nat -> string              (* the n-th [new Date().toISOString()] *)
}.

(** What the code asks of the remote store. *)
Inductive Request : Type :=
| SelectProfiles (orFilter : option string)
| SelectRoles (userIds : list string)
| SelectCredits (userIds : list string)
| SelectSocialAccounts (userIds : list string)
| SelectWallets (userIds : list string)
| SelectActiveBans (userIds : list string)
| UpsertRole (target role : string)
| DeleteRole (target role : string)
| InsertBan (target : string) (banned_by : option string) (reason : string)
            (is_active : bool)
| DeactivateBans (target unbanned_at updated_at : string).

Record ToastMsg : Type := mkToast {
  toast_title : string;
  description : string;
  variant : option string
}.

Inductive Event : Type :=
| ConsoleLog (msg : string) (arg : option string)
| ConsoleError (msg : string) (err : JsError)
| GetSession
| Query (r : Request)
| InvalidateQueries (queryKey : list string)
| Toast (t : ToastMsg).

(** The query cache: one entry per query key, with its staleness mark. *)
Record CacheEntry : Type := mkEntry {
  queryKey : list string;
  isInvalidated : bool
}.

Record State : Type := mkState {
  cache : list CacheEntry;
  trace : list Event
}.

(** An [async] body: it settles, resolved or rejected, in a new state. *)
Inductive Outcome (A : Type) : Type :=
| Resolved (a : A)
| Rejected (e : JsError).
Arguments Resolved {A} _.
Arguments Rejected {A} _.

Definition M (A : Type) : Type := State -> Outcome A * State.

Definition ret {A : Type} (a : A) : M A := fun st => (Resolved a, st).

Definition throw {A : Type} (e : JsError) : M A := fun st => (Rejected e, st).

Definition bind {A B : Type} (m : M A) (k : A -> M B) : M B :=
  fun st =>
    match m st with
    | (Resolved a, st') => k a st'
    | (Rejected e, st') => (Rejected e, st')
    end.

Notation "x <- m ;; k" := (bind m (fun x => k))
  (at level 61, m at next level, right associativity).
Notation "m ;;; k" := (bind m (fun _ => k))
  (at level 61, right associativity).

Definition emit (ev : Event) : M unit :=
  fun st => (Resolved tt, {| cache := cache st; trace := trace st ++ [ev] |}).

Fixpoint isPrefix (p k : list string) : bool :=
  match p, k with
  | [], _ => true
  | x :: p', y :: k' => (x =? y)%string && isPrefix p' k'
  | _ :: _, [] => false
  end.

(** The marking half of [queryClient.invalidateQueries({ queryKey })]: every
    cached query whose key starts with [queryKey] is marked invalidated. *)
Definition markInvalidated (key : list string) : M unit :=
  fun st =>
    (Resolved tt,
     {| cache := map (fun e => if isPrefix key (queryKey e)
                               then {| queryKey := queryKey e; isInvalidated := true |}
                               else e) (cache st);
        trace := trace st ++ [InvalidateQueries key] |}).

Definition toast (t : ToastMsg) : M unit := emit (Toast t).

(** [useMutation({ mutationFn, onSuccess, onError })], then [mutate(vars)]. *)
Definition useMutation {V : Type} (mutationFn : V -> M unit)
           (onSuccess : M unit) (onError : JsError -> M unit) (vars : V) : M unit :=
  fun st =>
    match mutationFn vars st with
    | (Resolved _, st') => onSuccess st'
    | (Rejected e, st') => (Rejected e, snd (onError e st'))
    end.

(** [s === o] for a string [s] and a string-or-undefined [o]. *)
Definition strictEq (s : string) (o : option string) : bool :=
  match o with
  | Some t => (s =? t)%string
  | None => false
  end.

Section Hook.

Variable remote : Remote.
Variable user : option UnifiedUser.      (* useUnifiedAuth().user *)
Variable searchTerm : string.

(** [user?.id] *)
Definition callerId : option string := option_map user_id user.

Definition getSession : M (option Session) :=
  emit GetSession ;;; ret (session remote).

Definition requireSession : M unit :=
  s <- getSession ;;
  match s with
  | None => throw (Error "No authenticated session found")
  | Some _ => ret tt
  end.

Definition logIfError (msg : string) (err : option JsError) : M unit :=
  match err with
  | Some e => emit (ConsoleError msg e)
  | None => ret tt
  end.

Definition merge (userRoles : option (list Role))
           (userCredits : option (list Credit))
           (socialAccounts : option (list Social))
           (userWallets : option (list Wallet))
           (userBans : option (list Ban)) (p : Profile) : MergedUser :=
  {| profile := p;
     user_roles :=
       match userRoles with
       | Some rs => filter (fun role => (role_user_id role =? profile_id p)%string) rs
       | None => []
       end;
     user_credits :=
       match userCredits with
       | Some cs => filter (fun credit => (credit_user_id credit =? profile_id p)%string) cs
       | None => []
       end;
     social_accounts :=
       match socialAccounts with
       | Some ss => filter (fun social => (social_user_id social =? profile_id p)%string) ss
       | None => []
       end;
     wallets :=
       match userWallets with
       | Some ws => filter (fun wallet => (wallet_user_id wallet =? profile_id p)%string) ws
       | None => []
       end;
     ban_info :=
       match userBans with
       | Some bs => find (fun ban => (ban_user_id ban =? profile_id p)%string) bs
       | None => None
       end |}.

Definition queryFn : M (list MergedUser) :=
  emit (ConsoleLog "🔍 UserManagement: Fetching enhanced user data, current user:"
                   callerId) ;;;
  requireSession ;;;
  let orFilter :=
    if (searchTerm =? "")%string then None
    else Some ("username.ilike.%" ++ searchTerm ++ "%,full_name.ilike.%" ++
               searchTerm ++ "%") in
  emit (Query (SelectProfiles orFilter)) ;;;
  match error (profilesResp remote) with
  | Some profileError =>
      emit (ConsoleError "❌ UserManagement: Profile fetch error:" profileError) ;;;
      throw profileError
  | None =>
      match data (profilesResp remote) with
      | None => ret []
      | Some profiles =>
          if (length profiles =? 0)%nat then ret [] else
          let userIds := map profile_id profiles in
          emit (Query (SelectRoles userIds)) ;;;
          logIfError "❌ UserManagement: Roles fetch error:"
                     (error (rolesResp remote)) ;;;
          emit (Query (SelectCredits userIds)) ;;;
          logIfError "❌ UserManagement: Credits fetch error:"
                     (error (creditsResp remote)) ;;;
          emit (Query (SelectSocialAccounts userIds)) ;;;
          logIfError "❌ UserManagement: Social accounts fetch error:"
                     (error (socialResp remote)) ;;;
          emit (Query (SelectWallets userIds)) ;;;
          logIfError "❌ UserManagement: Wallets fetch error:"
                     (error (walletsResp remote)) ;;;
          emit (Query (SelectActiveBans userIds)) ;;;
          logIfError "❌ UserManagement: Bans fetch error:"
                     (error (bansResp remote)) ;;;
          ret (map (merge (data (rolesResp remote)) (data (creditsResp remote))
                          (data (socialResp remote)) (data (walletsResp remote))
                          (data (bansResp remote)))
                   profiles)
      end
  end.

(** The write of a mutation: issue it, log and rethrow its error. *)
Definition write (req : Request) (msg : string) : M unit :=
  emit (Query req) ;;;
  match writeError remote with
  | Some e => emit (ConsoleError msg e) ;;; throw e
  | None => ret tt
  end.

(** [enabled: !!user] *)
Definition enabled : bool :=
  match user with
  | Some _ => true
  | None => false
  end.

(** What [queryFn] does before its first [await]: it logs and asks for the
    session. *)
Definition queryFnStart : M unit :=
  emit (ConsoleLog "🔍 UserManagement: Fetching enhanced user data, current user:"
                   callerId) ;;;
  emit GetSession.

(** [queryClient.invalidateQueries({ queryKey })]: the matching queries are
    marked, and those that are observed and enabled are refetched at once.
    The hook observes its own query, [['adminUsers', searchTerm]], enabled
    when the caller is known: its [queryFn] is started and runs up to its
    first [await]; the rest of that fetch comes after the callbacks of the
    mutation have returned. *)
Definition invalidateQueries (key : list string) : M unit :=
  markInvalidated key ;;;
  if enabled && isPrefix key ["adminUsers"; searchTerm] then queryFnStart
  else ret tt.

Definition onSuccess (text : string) : M unit :=
  invalidateQueries ["adminUsers"] ;;;
  toast {| toast_title := "Success"; description := text; variant := None |}.

Definition onError (fallback : string) (e : JsError) : M unit :=
  toast {| toast_title := "Error";
           description := js_or_string (message e) fallback;
           variant := Some "destructive" |}.

Definition makeAdminFn (userId : string) : M unit :=
  emit (ConsoleLog "🔧 UserManagement: Making user admin:" (Some userId)) ;;;
  requireSession ;;;
  write (UpsertRole userId "admin") "❌ UserManagement: Make admin error:".

Definition makeAdminMutation : string -> M unit :=
  useMutation makeAdminFn
              (onSuccess "User has been made an admin.")
              (onError "Failed to make user admin.").

Definition removeAdminFn (userId : string) : M unit :=
  emit (ConsoleLog "🔧 UserManagement: Removing admin from user:" (Some userId)) ;;;
  requireSession ;;;
  write (DeleteRole userId "admin") "❌ UserManagement: Remove admin error:".

Definition removeAdminMutation : string -> M unit :=
  useMutation removeAdminFn
              (onSuccess "Admin privileges removed.")
              (onError "Failed to remove admin privileges.").

Definition banUserFn (vars : string * string) : M unit :=
  let '(userId, reason) := vars in
  emit (ConsoleLog "🔧 UserManagement: Banning user:" (Some userId)) ;;;
  requireSession ;;;
  if strictEq userId callerId then throw (Error "You cannot ban yourself")
  else
    write (InsertBan userId callerId
                     (js_or_string (Some reason) "No reason provided") true)
          "❌ UserManagement: Ban user error:".

Definition banUserMutation : string * string -> M unit :=
  useMutation banUserFn
              (onSuccess "User has been banned.")
              (onError "Failed to ban user.").

(** The update object reads the clock twice, once per stamp. *)
Definition unbanUserFn (userId : string) : M unit :=
  emit (ConsoleLog "🔧 UserManagement: Unbanning user:" (Some userId)) ;;;
  requireSession ;;;
  write (DeactivateBans userId (clock remote 0) (clock remote 1))
        "❌ UserManagement: Unban user error:".

Definition unbanUserMutation : string -> M unit :=
  useMutation unbanUserFn
              (onSuccess "User has been unbanned.")
              (onError "Failed to unban user.").

End Hook.

(** *** Vocabulary of the properties *)

(** The rows a response carries: none when [data] is [null]. *)
Definition rowsOf {A : Type} (r : Response (list A)) : list A :=
  match data r with
  | Some rows => rows
  | None => []
  end.

(** The join with the ban worded as "the first active ban of the user"; it
    is [attachRows] when the ban rows are all active. *)
Definition joinProfile (roles : list Role) (credits : list Credit)
           (socials : list Social) (userWallets : list Wallet)
           (activeBans : list Ban) (p : Profile) : MergedUser :=
  {| profile := p;
     user_roles := filter (fun r => (role_user_id r =? profile_id p)%string) roles;
     user_credits := filter (fun c => (credit_user_id c =? profile_id p)%string) credits;
     social_accounts := filter (fun s => (social_user_id s =? profile_id p)%string) socials;
     wallets := filter (fun w => (wallet_user_id w =? profile_id p)%string) userWallets;
     ban_info := find (fun b => ban_is_active b &&
                                (ban_user_id b =? profile_id p)%string) activeBans |}.

(** The join of one profile with the rows of the five reads: of each
    collection the rows with the profile's id, in their order, and the first
    ban row with that id, whatever else the row says. *)
Definition attachRows (roles : list Role) (credits : list Credit)
           (socials : list Social) (userWallets : list Wallet)
           (bans : list Ban) (p : Profile) : MergedUser :=
  {| profile := p;
     user_roles := filter (fun r => (role_user_id r =? profile_id p)%string) roles;
     user_credits := filter (fun c => (credit_user_id c =? profile_id p)%string) credits;
     social_accounts := filter (fun s => (social_user_id s =? profile_id p)%string) socials;
     wallets := filter (fun w => (wallet_user_id w =? profile_id p)%string) userWallets;
     ban_info := find (fun b => (ban_user_id b =? profile_id p)%string) bans |}.

(** A failed read, and a read that succeeded with no rows. *)
Definition failedWith {A : Type} (e : JsError) : Response (list A) :=
  {| data := None; error := Some e |}.

Definition noRows {A : Type} : Response (list A) :=
  {| data := Some []; error := None |}.

Definition asIfEmpty {A : Type} (r : Response (list A)) : Response (list A) :=
  match data r with
  | None => noRows
  | Some _ => r
  end.

(** The same answers, every failed satellite read replaced by an empty one. *)
Definition satellitesAsIfEmpty (remote : Remote) : Remote :=
  {| session := session remote;
     profilesResp := profilesResp remote;
     rolesResp := asIfEmpty (rolesResp remote);
     creditsResp := asIfEmpty (creditsResp remote);
     socialResp := asIfEmpty (socialResp remote);
     walletsResp := asIfEmpty (walletsResp remote);
     bansResp := asIfEmpty (bansResp remote);
     writeError := writeError remote;
     clock := clock remote |}.

Definition isSatelliteQuery (ev : Event) : bool :=
  match ev with
  | Query (SelectRoles _) | Query (SelectCredits _)
  | Query (SelectSocialAccounts _) | Query (SelectWallets _)
  | Query (SelectActiveBans _) => true
  | _ => false
  end.

Definition isStoreRequest (ev : Event) : bool :=
  match ev with
  | Query _ => true
  | _ => false
  end.

Definition isInvalidation (ev : Event) : bool :=
  match ev with
  | InvalidateQueries _ => true
  | _ => false
  end.

Definition isToast (ev : Event) : bool :=
  match ev with
  | Toast _ => true
  | _ => false
  end.

Definition isSuccessToast (ev : Event) : bool :=
  match ev with
  | Toast t => (toast_title t =? "Success")%string
  | _ => false
  end.

(** Every cached directory query, whatever its search term, is stale. *)
Definition allDirectoryStale (c : list CacheEntry) : Prop :=
  forall e, In e c ->
    forall rest, queryKey e = "adminUsers" :: rest -> isInvalidated e = true.

(** Entries of other queries are left as they were. *)
Definition othersUntouched (before after : list CacheEntry) : Prop :=
  map queryKey after = map queryKey before /\
  forall e, In e before -> isPrefix ["adminUsers"] (queryKey e) = false ->
            In e after.

Definition successToast (text : string) : ToastMsg :=
  {| toast_title := "Success"; description := text; variant := None |}.

Definition errorToast (text : string) : ToastMsg :=
  {| toast_title := "Error"; description := text; variant := Some "destructive" |}.

(** The contract the four mutations share, for a run [out] from [st] whose
    write [req] was answered with [writeErr]; [okText] and [fallback] are the
    texts of the notifications.  The write is the one request the run sends
    to the store, and the notification is the last thing the run does. *)
Definition mutationContract (writeErr : option JsError) (st : State)
           (out : Outcome unit * State) (req : Request)
           (okText fallback : string) : Prop :=
  exists issued : list Event,
    trace (snd out) = (trace st ++ issued)%list /\
    filter isStoreRequest issued = [Query req] /\
    match writeErr with
    | None =>
        fst out = Resolved tt /\
        allDirectoryStale (cache (snd out)) /\
        othersUntouched (cache st) (cache (snd out)) /\
        filter isInvalidation issued = [InvalidateQueries ["adminUsers"]] /\
        filter isToast issued = [Toast (successToast okText)] /\
        last issued GetSession = Toast (successToast okText)
    | Some e =>
        let text := match message e with
                    | Some m => if (m =? "")%string then fallback else m
                    | None => fallback
                    end in
        fst out = Rejected e /\
        cache (snd out) = cache st /\
        filter isInvalidation issued = [] /\
        filter isToast issued = [Toast (errorToast text)] /\
        last issued GetSession = Toast (errorToast text)
    end.

(** *** Sample data *)

Definition emptyState : State := {| cache := []; trace := [] |}.

Definition ok {A : Type} (rows : list A) : Response (list A) :=
  {| data := Some rows; error := None |}.

Definition profile1 : Profile := mkProfile "1" "alice" "Alice" "2024-02-02".
Definition profile2 : Profile := mkProfile "2" "bob" "Bob" "2024-01-01".

(** Profiles 1 and 2, one admin role for 1, no bans. *)
Definition sampleRemote : Remote :=
  {| session := Some (mkSession "token");
     profilesResp := ok [profile1; profile2];
     rolesResp := ok [mkRole "1" "admin"];
     creditsResp := ok [mkCredit "2" 50];
     socialResp := ok [];
     walletsResp := ok [];
     bansResp := ok [];
     writeError := None;
     clock := fun n => match n with
                       | O => "2024-03-03T00:00:00.000Z"
                       | S _ => "2024-03-03T00:00:00.001Z"
                       end |}.

(** The same store, the caller's session gone. *)
Definition noSessionRemote : Remote :=
  {| session := None;
     profilesResp := profilesResp sampleRemote;
     rolesResp := rolesResp sampleRemote;
     creditsResp := creditsResp sampleRemote;
     socialResp := socialResp sampleRemote;
     walletsResp := walletsResp sampleRemote;
     bansResp := bansResp sampleRemote;
     writeError := None;
     clock := clock sampleRemote |}.

(** The same store, the roles and bans reads failing. *)
Definition degradedRemote : Remote :=
  {| session := session sampleRemote;
     profilesResp := profilesResp sampleRemote;
     rolesResp := failedWith (Error "permission denied for table user_roles");
     creditsResp := creditsResp sampleRemote;
     socialResp := socialResp sampleRemote;
     walletsResp := walletsResp sampleRemote;
     bansResp := failedWith {| message := None |};
     writeError := None;
     clock := clock sampleRemote |}.

(** The same store, no profile matching the search. *)
Definition noMatchRemote : Remote :=
  {| session := session sampleRemote;
     profilesResp := ok [];
     rolesResp := rolesResp sampleRemote;
     creditsResp := creditsResp sampleRemote;
     socialResp := socialResp sampleRemote;
     walletsResp := walletsResp sampleRemote;
     bansResp := bansResp sampleRemote;
     writeError := None;
     clock := clock sampleRemote |}.



Definition sampleCache : list CacheEntry :=
  [ {| queryKey := ["adminUsers"; ""]; isInvalidated := false |};
    {| queryKey := ["adminUsers"; "bob"]; isInvalidated := false |};
    {| queryKey := ["leaderboard"]; isInvalidated := false |} ].

(** *** Vocabulary of the further properties *)

Definition isWrite (ev : Event) : bool :=
  match ev with
  | Query (UpsertRole _ _) | Query (DeleteRole _ _)
  | Query (InsertBan _ _ _ _) | Query (DeactivateBans _ _ _) => true
  | _ => false
  end.

Definition isBanInsert (ev : Event) : bool :=
  match ev with
  | Query (InsertBan _ _ _ _) => true
  | _ => false
  end.

Definition isErrorLog (ev : Event) : bool :=
  match ev with
  | ConsoleError _ _ => true
  | _ => false
  end.

(** What is logged for the error of a satellite read. *)
Definition errorLog (msg : string) (err : option JsError) : list Event :=
  match err with
  | Some e => [ConsoleError msg e]
  | None => []
  end.

(** The five satellite reads, in the order the fetch issues them. *)
Definition satelliteReads (userIds : list string) : list Event :=
  [Query (SelectRoles userIds); Query (SelectCredits userIds);
   Query (SelectSocialAccounts userIds); Query (SelectWallets userIds);
   Query (SelectActiveBans userIds)].

(** How many of the five satellite reads came back with an error. *)
Definition satelliteErrors (remote : Remote) : nat :=
  length (errorLog "" (error (rolesResp remote)) ++
          errorLog "" (error (creditsResp remote)) ++
          errorLog "" (error (socialResp remote)) ++
          errorLog "" (error (walletsResp remote)) ++
          errorLog "" (error (bansResp remote))).

(** The cache keeps its entries and their order, and no entry loses its
    staleness mark. *)
Definition cacheGrows (before after : list CacheEntry) : Prop :=
  Forall2 (fun e e' => queryKey e' = queryKey e /\
                       (isInvalidated e = true -> isInvalidated e' = true))
          before after.

(** The four mutations of the hook, by name. *)
Inductive MutationName : Type :=
| MakeAdmin | RemoveAdmin | BanUser (reason : string) | UnbanUser.

Definition runMutation (remote : Remote) (user : option UnifiedUser)
           (searchTerm : string) (name : MutationName) (userId : string) : M unit :=
  match name with
  | MakeAdmin => makeAdminMutation remote user searchTerm userId
  | RemoveAdmin => removeAdminMutation remote user searchTerm userId
  | BanUser reason => banUserMutation remote user searchTerm (userId, reason)
  | UnbanUser => unbanUserMutation remote user searchTerm userId
  end.

End Directory.

(** ** Properties of the board renderer *)

Module BoardProps.
Import Board.
Local Open Scope list_scope.

Lemma filter_keeps_last {A : Type} (f : A -> bool) (pre post : list A) (a : A) :
  f a = true ->
  Forall (fun b => f b = false) post ->
  filter f (pre ++ a :: post) = filter f pre ++ [a].
Proof.
  intros Ha Hpost.
  rewrite filter_app. cbn [filter]. rewrite Ha. f_equal. f_equal.
  induction Hpost as [|b post Hb _ IH]; [reflexivity|].
  cbn [filter]. now rewrite Hb.
Qed.

Lemma filter_none {A : Type} (f : A -> bool) (l : list A) :
  Forall (fun b => f b = false) l -> filter f l = [].
Proof.
  induction 1 as [|b l Hb _ IH]; [reflexivity|].
  cbn [filter]. now rewrite Hb.
Qed.

Lemma nth_error_final {A : Type} (l : list A) (a : A) :
  nth_error (l ++ [a]) (length (l ++ [a]) - 1) = Some a.
Proof.
  rewrite length_app. cbn [length].
  replace (length l + 1 - 1)%nat with (length l) by lia.
  rewrite nth_error_app2 by lia.
  now rewrite Nat.sub_diag.
Qed.

Lemma latest_of_relevant (anims : list AnimationEvent) (r c : Z)
      (older : list AnimationEvent) (a : AnimationEvent) :
  filter (covers r c) anims = older ++ [a] ->
  getAnimationClasses (Some anims) r c = animationEffect (type a).
Proof.
  intros Hrel. unfold getAnimationClasses.
  destruct anims as [|x anims']; [now destruct older|].
  cbn [length Nat.eqb]. rewrite Hrel.
  rewrite nth_error_final.
  rewrite length_app. cbn [length].
  now replace (length older + 1)%nat with (S (length older)) by lia.
Qed.

Lemma animationEffect_other (kind : string) :
  kind <> "match" -> kind <> "drop" -> kind <> "invalid" ->
  animationEffect kind = "".
Proof.
  intros Hm Hd Hi. unfold animationEffect.
  apply String.eqb_neq in Hm, Hd, Hi. now rewrite Hm, Hd, Hi.
Qed.

(** Every list of events either has no event on the cell or splits at the
    last one that is. *)
Lemma last_covering_split (anims : list AnimationEvent) (r c : Z) :
  Forall (fun b => covers r c b = false) anims \/
  exists pre a post,
    anims = pre ++ a :: post /\ covers r c a = true /\
    Forall (fun b => covers r c b = false) post.
Proof.
  induction anims as [|x anims IH].
  - left. constructor.
  - destruct IH as [Hnone | (pre & a & post & -> & Ha & Hpost)].
    + destruct (covers r c x) eqn:Hx.
      * right. exists [], x, anims. now repeat split.
      * left. now constructor.
    + right. exists (x :: pre), a, post. now repeat split.
Qed.

(** C6 — among the animation events whose tiles contain the cell, the last
    one in list order alone decides the cell's effect: whatever comes before
    it contributes nothing.  'match' gives the flash (animate-ping), 'drop'
    the bounce, 'invalid' the pulse, every other kind (such as 'cascade')
    nothing; a cell no event covers, or a missing list, has no effect (and
    every list is of one of these two shapes); and for 'invalid' then 'match'
    on cell (2,3) the cell shows the flash only. *)
Theorem C6_last_covering_event_decides
        (pre post : list AnimationEvent) (a : AnimationEvent) (r c : Z)
        (Hcovers : covers r c a = true)
        (Hlast : Forall (fun b => covers r c b = false) post) :
  getAnimationClasses (Some (pre ++ a :: post)) r c = animationEffect (type a) /\
  (forall anims, Forall (fun b => covers r c b = false) anims ->
                 getAnimationClasses (Some anims) r c = "") /\
  (forall anims,
      Forall (fun b => covers r c b = false) anims \/
      exists pre' a' post',
        anims = pre' ++ a' :: post' /\ covers r c a' = true /\
        Forall (fun b => covers r c b = false) post') /\
  getAnimationClasses None r c = "" /\
  animationEffect "match" = "animate-ping " /\
  animationEffect "drop" = "animate-bounce " /\
  animationEffect "invalid" = "animate-pulse " /\
  animationEffect "cascade" = "" /\
  (forall kind, kind <> "match" -> kind <> "drop" -> kind <> "invalid" ->
                animationEffect kind = "") /\
  getAnimationClasses
    (Some [ {| id := "a1"; type := "invalid"; tiles := Some [mkPos 2 3];
               cascadeMultiplier := None |};
            {| id := "a2"; type := "match"; tiles := Some [mkPos 2 3];
               cascadeMultiplier := None |} ]) 2 3 = "animate-ping ".
Proof.
  repeat split; try reflexivity.
  - apply latest_of_relevant with (older := filter (covers r c) pre).
    now apply filter_keeps_last.
  - intros anims Hnone. unfold getAnimationClasses.
    rewrite (filter_none _ _ Hnone).
    now destruct anims.
  - intros anims. apply last_covering_split.
  - apply animationEffect_other.
Qed.

Lemma C6_last_covering_event_decides_witness :
  let invalid23 := {| id := "a1"; type := "invalid"; tiles := Some [mkPos 2 3];
                      cascadeMultiplier := None |} in
  let drop23 := {| id := "a2"; type := "drop"; tiles := Some [mkPos 0 0; mkPos 2 3];
                   cascadeMultiplier := None |} in
  let cascade := {| id := "a3"; type := "cascade"; tiles := None;
                    cascadeMultiplier := Some "1.5" |} in
  covers 2 3 drop23 = true /\
  Forall (fun b => covers 2 3 b = false) [cascade] /\
  getAnimationClasses (Some ([invalid23] ++ drop23 :: [cascade])) 2 3 =
    "animate-bounce ".
Proof.
  intros invalid23 drop23 cascade.
  assert (Hc : covers 2 3 drop23 = true) by reflexivity.
  assert (Hl : Forall (fun b => covers 2 3 b = false) [cascade])
    by (constructor; [reflexivity | constructor]).
  split; [exact Hc | split; [exact Hl |]].
  exact (proj1 (C6_last_covering_event_decides [invalid23] [cascade] drop23 2 3 Hc Hl)).
Defined.

(** *** Base visual state *)

Ltac tile_cases sel hints r c tile :=
  destruct (isSelected sel r c) eqn:?, (isHinted hints r c) eqn:?, tile;
  try discriminate; try congruence.

(** C7 — the base visual state of a cell follows the precedence
    selected > hinted > blocked > empty > ordinary: the class name of the cell
    shows exactly one base state, the highest one that applies.  A cell that
    is selected shows the selected state whatever the hints and the tile
    (also when it is hinted, blocked or empty); a hinted cell that is not
    selected shows the hinted state whatever the tile. *)
Theorem C7_visual_state_precedence
        (selectedTile : option Pos) (hintTiles : list Pos) (isMobile : bool)
        (r c : Z) (tile : TileType) :
  let cls := getTileClassName selectedTile hintTiles isMobile r c tile in
  option_map (fun st => [st]) (highest_applicable selectedTile hintTiles r c tile)
    = Some (shown_states cls) /\
  (isSelected selectedTile r c = true -> shown_states cls = [Selected]) /\
  (isSelected selectedTile r c = false -> isHinted hintTiles r c = true ->
   shown_states cls = [Hinted]) /\
  (isSelected selectedTile r c = false -> isHinted hintTiles r c = false ->
   (tile = BLOCKED -> shown_states cls = [Blocked]) /\
   (tile = EMPTY -> shown_states cls = [Empty]) /\
   (tile <> BLOCKED -> tile <> EMPTY -> shown_states cls = [Ordinary])).
Proof.
  unfold highest_applicable, getTileClassName.
  cbn [find precedence applicable].
  repeat split; intros;
    tile_cases selectedTile hintTiles r c tile;
    destruct isMobile; reflexivity.
Qed.

Lemma C7_visual_state_precedence_witness :
  let sel := Some (mkPos 2 3) in
  let hints := [mkPos 2 3; mkPos 4 4] in
  isSelected sel 2 3 = true /\
  isHinted hints 2 3 = true /\
  shown_states (getTileClassName sel hints true 2 3 BLOCKED) = [Selected] /\
  isSelected sel 4 4 = false /\
  isHinted hints 4 4 = true /\
  shown_states (getTileClassName sel hints false 4 4 EMPTY) = [Hinted].
Proof.
  intros sel hints.
  pose proof (C7_visual_state_precedence sel hints true 2 3 BLOCKED) as H23.
  pose proof (C7_visual_state_precedence sel hints false 4 4 EMPTY) as H44.
  cbv zeta in H23, H44.
  destruct H23 as (_ & Hsel & _).
  destruct H44 as (_ & _ & Hhint & _).
  split; [reflexivity|].
  split; [reflexivity|].
  split; [apply Hsel; reflexivity|].
  split; [reflexivity|].
  split; [reflexivity|].
  apply Hhint; reflexivity.
Defined.

(** *** The guard *)

(** C8 — a board that is null, has no rows, has a null first row or a first
    row of length zero renders the loading placeholder and does not raise,
    whatever the selection, hints, animations and presentation mode are: the
    placeholder has no cell, and the rows after the first are never looked
    at (a null row among them would make the row mapping raise, as it does
    behind a first row that passes the guard). *)
Theorem C8_degenerate_board_renders_placeholder
        (selectedTile : option Pos) (hintTiles : list Pos)
        (animations : option (list AnimationEvent)) (isMobile : bool)
        (rest : list (option (list TileType))) :
  EnhancedGameBoard None selectedTile hintTiles animations isMobile
    = Returned Loading /\
  EnhancedGameBoard (Some []) selectedTile hintTiles animations isMobile
    = Returned Loading /\
  EnhancedGameBoard (Some (None :: rest)) selectedTile hintTiles animations isMobile
    = Returned Loading /\
  EnhancedGameBoard (Some (Some [] :: rest)) selectedTile hintTiles animations isMobile
    = Returned Loading /\
  EnhancedGameBoard (Some (Some [] :: None :: rest)) selectedTile hintTiles
                    animations isMobile
    = Returned Loading /\
  EnhancedGameBoard (Some (Some [POOP] :: None :: rest)) selectedTile hintTiles
                    animations isMobile
    = Threw.
Proof.
  repeat split.
Qed.

(** *** Presentation mode *)

Lemma animation_classes_range (animations : option (list AnimationEvent)) (r c : Z) :
  In (getAnimationClasses animations r c)
     [""; "animate-ping "; "animate-bounce "; "animate-pulse "].
Proof.
  unfold getAnimationClasses.
  destruct animations as [anims|]; [|now left].
  destruct (length anims =? 0)%nat; [now left|].
  destruct (length (filter (covers r c) anims) =? 0)%nat; [now left|].
  destruct (nth_error _ _) as [latest|]; [|now left].
  unfold animationEffect.
  destruct (type latest =? "match")%string; [cbn; tauto|].
  destruct (type latest =? "drop")%string; [cbn; tauto|].
  destruct (type latest =? "invalid")%string; cbn; tauto.
Qed.

Lemma renderCell_same_logic
      (board : option (list (option (list TileType))))
      (selectedTile : option Pos) (hintTiles : list Pos)
      (animations : option (list AnimationEvent))
      (rowIndex colIndex : Z) (tile : TileType) :
  same_logic
    (renderCell board selectedTile hintTiles animations true rowIndex colIndex tile)
    (renderCell board selectedTile hintTiles animations false rowIndex colIndex tile).
Proof.
  unfold same_logic, renderCell. cbn [key title glyph onClick className].
  do 4 (split; [reflexivity|]).
  unfold getTileClassName.
  pose proof (animation_classes_range animations rowIndex colIndex) as Hrange.
  cbn [In] in Hrange.
  destruct Hrange as [<- | [<- | [<- | [<- | []]]]];
    destruct (isSelected selectedTile rowIndex colIndex),
             (isHinted hintTiles rowIndex colIndex), tile;
    (split; [vm_compute; reflexivity | eexists; split; vm_compute; reflexivity]).
Qed.

Lemma mapi_same_logic
      (board : option (list (option (list TileType))))
      (selectedTile : option Pos) (hintTiles : list Pos)
      (animations : option (list AnimationEvent))
      (rowIndex : Z) (cells : list TileType) :
  forall colIndex,
    Forall2 same_logic
      (mapi_from colIndex
         (renderCell board selectedTile hintTiles animations true rowIndex) cells)
      (mapi_from colIndex
         (renderCell board selectedTile hintTiles animations false rowIndex) cells).
Proof.
  induction cells as [|tile cells IH]; intros colIndex; cbn [mapi_from].
  - constructor.
  - constructor; [apply renderCell_same_logic | apply IH].
Qed.

Lemma renderRows_same_logic
      (board : option (list (option (list TileType))))
      (selectedTile : option Pos) (hintTiles : list Pos)
      (animations : option (list AnimationEvent))
      (rows : list (option (list TileType))) :
  forall rowIndex,
    match renderRows board selectedTile hintTiles animations true rowIndex rows,
          renderRows board selectedTile hintTiles animations false rowIndex rows with
    | Some mobile, Some desktop => Forall2 (Forall2 same_logic) mobile desktop
    | None, None => True
    | _, _ => False
    end.
Proof.
  induction rows as [|[cells|] rows IH]; intros rowIndex; cbn [renderRows].
  - constructor.
  - specialize (IH (rowIndex + 1)).
    destruct (renderRows _ _ _ _ true _ rows), (renderRows _ _ _ _ false _ rows);
      try assumption.
    constructor; [apply mapi_same_logic | assumption].
  - exact I.
Qed.

(** C9 — the presentation mode changes size and spacing constants only.  Run
    on the same board, selection, hints and animations, the mobile and the
    desktop renderer both raise, or both show the placeholder, or both show a
    grid with the same footer and cell by cell the same key, title, glyph and
    click behaviour (swallowed, or forwarded with the same row and column),
    the same base visual state, and class names that are equal after the
    size prefix (so the same accent and the same animation effect); the grid
    classes differ in gap and padding. *)
Theorem C9_presentation_mode_changes_constants_only
        (board : option (list (option (list TileType))))
        (selectedTile : option Pos) (hintTiles : list Pos)
        (animations : option (list AnimationEvent)) :
  same_logic_view
    (EnhancedGameBoard board selectedTile hintTiles animations true)
    (EnhancedGameBoard board selectedTile hintTiles animations false) /\
  (forall r c, handleTileClick board r c = Swallowed \/
               handleTileClick board r c = Forwarded r c \/
               handleTileClick board r c = ClickThrew) /\
  densityPrefix true <> densityPrefix false /\
  densityGrid true <> densityGrid false.
Proof.
  split; [|split; [|split; discriminate]].
  - unfold EnhancedGameBoard.
    destruct board as [rows|]; [|exact I].
    destruct rows as [|[first|] rest]; cbn [length Nat.eqb nth_error]; try exact I.
    destruct first as [|tile first]; cbn [length Nat.eqb]; [exact I|].
    pose proof (renderRows_same_logic
                  (Some (Some (tile :: first) :: rest))
                  selectedTile hintTiles animations
                  (Some (tile :: first) :: rest) 0) as Hrows.
    destruct (renderRows _ _ _ _ true _ _), (renderRows _ _ _ _ false _ _);
      cbn [same_logic_view]; try assumption.
    repeat split; assumption.
  - intros r c. unfold handleTileClick.
    destruct board as [rows|]; [|now right; right].
    destruct (js_index rows r) as [[cells|]|]; try now (right; right).
    destruct (js_index cells c) as [[]|]; auto.
Qed.

End BoardProps.

(** ** Properties of the user directory hook *)

Module DirectoryProps.
Import Directory.
Local Open Scope list_scope.

(** The key of the hook's own query starts with the invalidated key. *)
Lemma own_query_matches (searchTerm : string) :
  isPrefix ["adminUsers"] ["adminUsers"; searchTerm] = true.
Proof. reflexivity. Qed.

(** Unfolding one run of the monadic code. *)
Ltac run :=
  unfold queryFn, makeAdminMutation, removeAdminMutation, banUserMutation,
    unbanUserMutation, useMutation, makeAdminFn, removeAdminFn, banUserFn,
    unbanUserFn, write, onSuccess, onError, requireSession, getSession,
    toast, invalidateQueries, markInvalidated, queryFnStart, enabled,
    bind, emit, throw, ret;
  rewrite ?own_query_matches, ?andb_true_r;
  cbn [fst snd cache trace].

Ltac flatten_trace := rewrite <- ?app_assoc; cbn [app].

(** *** The fetch *)

(** Logging a satellite error never rejects and leaves the cache alone. *)
Lemma logIfError_run (msg : string) (err : option JsError) (st : State) :
  logIfError msg err st =
  (Resolved tt,
   {| cache := cache st;
      trace := trace st ++ match err with
                           | Some e => [ConsoleError msg e]
                           | None => []
                           end |}).
Proof.
  unfold logIfError, emit, ret.
  destruct err, st; cbn [cache trace]; [reflexivity|].
  now rewrite app_nil_r.
Qed.

(** The merge of the code is the join by user id over the rows read. *)
Lemma merge_attaches (roles : option (list Role)) (credits : option (list Credit))
      (socials : option (list Social)) (userWallets : option (list Wallet))
      (bans : option (list Ban)) (p : Profile) :
  merge roles credits socials userWallets bans p =
  attachRows (match roles with Some l => l | None => [] end)
             (match credits with Some l => l | None => [] end)
             (match socials with Some l => l | None => [] end)
             (match userWallets with Some l => l | None => [] end)
             (match bans with Some l => l | None => [] end) p.
Proof.
  unfold merge, attachRows.
  now destruct roles, credits, socials, userWallets, bans.
Qed.

(** With a session and a profile read that did not fail, the fetch resolves
    to the merge over the profiles. *)
Lemma queryFn_resolves (remote : Remote) (user : option UnifiedUser)
      (searchTerm : string) (st : State) :
  session remote <> None ->
  error (profilesResp remote) = None ->
  fst (queryFn remote user searchTerm st) =
  Resolved (map (merge (data (rolesResp remote)) (data (creditsResp remote))
                       (data (socialResp remote)) (data (walletsResp remote))
                       (data (bansResp remote)))
                (rowsOf (profilesResp remote))) /\
  cache (snd (queryFn remote user searchTerm st)) = cache st.
Proof.
  intros Hsession Herror. run. unfold rowsOf.
  destruct (session remote) as [s|]; [|contradiction].
  rewrite Herror.
  destruct (data (profilesResp remote)) as [[|p ps]|]; cbn [length Nat.eqb];
    try (split; reflexivity).
  rewrite !logIfError_run. cbn [fst snd cache trace].
  split; reflexivity.
Qed.

(** What the fetch resolves to, in terms of the rows read. *)
Lemma queryFn_joins (remote : Remote) (user : option UnifiedUser)
      (searchTerm : string) (st : State) :
  session remote <> None ->
  error (profilesResp remote) = None ->
  fst (queryFn remote user searchTerm st) =
  Resolved (map (attachRows (rowsOf (rolesResp remote))
                            (rowsOf (creditsResp remote))
                            (rowsOf (socialResp remote))
                            (rowsOf (walletsResp remote))
                            (rowsOf (bansResp remote)))
                (rowsOf (profilesResp remote))).
Proof.
  intros Hsession Herror.
  destruct (queryFn_resolves remote user searchTerm st Hsession Herror) as [-> _].
  f_equal. apply map_ext. intros p. apply merge_attaches.
Qed.

(** On ban rows that are all active, the first row of the user is the first
    active one. *)
Lemma attachRows_active (roles : list Role) (credits : list Credit)
      (socials : list Social) (userWallets : list Wallet) (bans : list Ban)
      (p : Profile) :
  Forall (fun b => ban_is_active b = true) bans ->
  attachRows roles credits socials userWallets bans p =
  joinProfile roles credits socials userWallets bans p.
Proof.
  intros Hactive. unfold attachRows, joinProfile. f_equal.
  induction Hactive as [|b bs Hb _ IH]; [reflexivity|].
  cbn [find]. rewrite Hb. cbn [andb].
  destruct (ban_user_id b =? profile_id p)%string; [reflexivity | exact IH].
Qed.




Lemma rowsOf_asIfEmpty {A : Type} (r : Response (list A)) :
  rowsOf (asIfEmpty r) = rowsOf r.
Proof.
  unfold rowsOf, asIfEmpty. now destruct (data r) eqn:Hd; cbn [data noRows]; rewrite ?Hd.
Qed.

(** C3 — when the profile read succeeds, a failing satellite read does not
    abort the fetch: it resolves to the merged list — one record per profile,
    every satellite that was read holding its rows of that profile — and a
    satellite whose read failed is the empty array (null for ban_info) in
    every record, exactly as when that read had succeeded with no rows: the
    fetch resolves to the same list when every failed satellite read is
    replaced by an empty successful one. *)
Theorem C3_failed_satellite_degrades_to_empty
        (remote : Remote) (user : option UnifiedUser) (searchTerm : string)
        (st : State)
        (Hsession : session remote <> None)
        (Hprofiles : error (profilesResp remote) = None) :
  let merged :=
    map (attachRows (rowsOf (rolesResp remote)) (rowsOf (creditsResp remote))
                    (rowsOf (socialResp remote)) (rowsOf (walletsResp remote))
                    (rowsOf (bansResp remote)))
        (rowsOf (profilesResp remote)) in
  fst (queryFn remote user searchTerm st) = Resolved merged /\
  fst (queryFn (satellitesAsIfEmpty remote) user searchTerm st) = Resolved merged /\
  (data (rolesResp remote) = None ->
   Forall (fun u => user_roles u = []) merged) /\
  (data (creditsResp remote) = None ->
   Forall (fun u => user_credits u = []) merged) /\
  (data (socialResp remote) = None ->
   Forall (fun u => social_accounts u = []) merged) /\
  (data (walletsResp remote) = None ->
   Forall (fun u => wallets u = []) merged) /\
  (data (bansResp remote) = None ->
   Forall (fun u => ban_info u = None) merged).
Proof.
  cbv zeta.
  split; [now apply queryFn_joins|].
  split.
  - rewrite (queryFn_joins (satellitesAsIfEmpty remote) user searchTerm st
                           Hsession Hprofiles).
    cbn [satellitesAsIfEmpty rolesResp creditsResp socialResp walletsResp
         bansResp profilesResp].
    now rewrite !rowsOf_asIfEmpty.
  - unfold rowsOf.
    repeat split; intros ->; apply Forall_forall; intros u Hu;
      apply in_map_iff in Hu; destruct Hu as (p & <- & _); reflexivity.
Qed.

Lemma C3_failed_satellite_degrades_to_empty_witness :
  let merged :=
    [ {| profile := profile1; user_roles := [];
         user_credits := []; social_accounts := []; wallets := [];
         ban_info := None |};
      {| profile := profile2; user_roles := [];
         user_credits := [mkCredit "2" 50]; social_accounts := []; wallets := [];
         ban_info := None |} ] in
  session degradedRemote <> None /\
  error (profilesResp degradedRemote) = None /\
  data (rolesResp degradedRemote) = None /\
  data (bansResp degradedRemote) = None /\
  fst (queryFn degradedRemote (Some (mkUser "1")) "" emptyState) = Resolved merged /\
  fst (queryFn (satellitesAsIfEmpty degradedRemote) (Some (mkUser "1")) ""
               emptyState) = Resolved merged /\
  Forall (fun u => user_roles u = []) merged /\
  Forall (fun u => ban_info u = None) merged.
Proof.
  intros merged.
  assert (Hs : session degradedRemote <> None) by discriminate.
  split; [exact Hs|]. do 3 (split; [reflexivity|]).
  destruct (C3_failed_satellite_degrades_to_empty
              degradedRemote (Some (mkUser "1")) "" emptyState Hs eq_refl)
    as (Hrun & Hrun' & Hroles & _ & _ & _ & Hbans).
  split; [exact Hrun | split; [exact Hrun' |]].
  split; [exact (Hroles eq_refl) | exact (Hbans eq_refl)].
Defined.

(** C5 — when the profile read yields no profile (an empty list, or null),
    none of the five satellite reads is issued, whatever else happens; and
    when there is a session and the profile read did not fail, the fetch
    resolves to the empty list having asked for the session and the
    profiles only. *)
Theorem C5_no_profiles_no_satellite_reads
        (remote : Remote) (user : option UnifiedUser) (searchTerm : string)
        (st : State)
        (Hzero : data (profilesResp remote) = None \/
                 data (profilesResp remote) = Some []) :
  (exists issued : list Event,
      trace (snd (queryFn remote user searchTerm st)) = trace st ++ issued /\
      forallb (fun ev => negb (isSatelliteQuery ev)) issued = true) /\
  (session remote <> None -> error (profilesResp remote) = None ->
   exists (intro : Event) (orFilter : option string),
     queryFn remote user searchTerm st =
     (Resolved [],
      {| cache := cache st;
         trace := trace st ++ [intro; GetSession; Query (SelectProfiles orFilter)] |})).
Proof.
  split.
  - run.
    destruct (session remote) as [s|]; cbn [fst snd trace];
      [| eexists; split; [flatten_trace; reflexivity | reflexivity]].
    destruct (error (profilesResp remote)) as [e|]; cbn [fst snd trace];
      [eexists; split; [flatten_trace; reflexivity | reflexivity]|].
    destruct Hzero as [-> | ->]; cbn [length Nat.eqb fst snd trace];
      eexists; (split; [flatten_trace; reflexivity | reflexivity]).
  - intros Hsession Herror. run.
    destruct (session remote) as [s|]; [|contradiction].
    rewrite Herror.
    destruct Hzero as [-> | ->]; cbn [length Nat.eqb cache trace];
      do 2 eexists; flatten_trace; reflexivity.
Qed.

Lemma C5_no_profiles_no_satellite_reads_witness :
  (data (profilesResp noMatchRemote) = None \/
   data (profilesResp noMatchRemote) = Some []) /\
  session noMatchRemote <> None /\
  error (profilesResp noMatchRemote) = None /\
  exists (intro : Event) (orFilter : option string),
    queryFn noMatchRemote (Some (mkUser "1")) "zed" emptyState =
    (Resolved [],
     {| cache := [];
        trace := [intro; GetSession; Query (SelectProfiles orFilter)] |}).
Proof.
  assert (Hz : data (profilesResp noMatchRemote) = None \/
               data (profilesResp noMatchRemote) = Some []) by (right; reflexivity).
  assert (Hs : session noMatchRemote <> None) by discriminate.
  split; [exact Hz | split; [exact Hs | split; [reflexivity |]]].
  exact (proj2 (C5_no_profiles_no_satellite_reads
                  noMatchRemote (Some (mkUser "1")) "zed" emptyState Hz)
               Hs eq_refl).
Defined.

(** *** The mutations *)

(** The start of a refetch is the start of the fetch: every run of
    [queryFn] begins with what [queryFnStart] does. *)
Lemma queryFn_begins_with_its_start (remote : Remote) (user : option UnifiedUser)
      (searchTerm : string) (st : State) :
  exists rest,
    trace (snd (queryFn remote user searchTerm st)) =
    trace (snd (queryFnStart user st)) ++ rest.
Proof.
  run.
  destruct (session remote) as [s|]; cbn [fst snd cache trace];
    [|eexists; symmetry; apply app_nil_r].
  destruct (error (profilesResp remote)) as [e|]; cbn [fst snd cache trace];
    [eexists; rewrite <- !app_assoc; reflexivity|].
  destruct (data (profilesResp remote)) as [[|p ps]|]; cbn [length Nat.eqb];
    rewrite ?logIfError_run; cbn [fst snd cache trace];
    eexists; rewrite <- !app_assoc; reflexivity.
Qed.

Lemma strictEq_self (s : string) : strictEq s (Some s) = true.
Proof. apply String.eqb_refl. Qed.

Lemma invalidated_all_stale (c : list CacheEntry) :
  allDirectoryStale
    (map (fun e => if isPrefix ["adminUsers"] (queryKey e)
                   then {| queryKey := queryKey e; isInvalidated := true |}
                   else e) c).
Proof.
  intros e Hin rest Hkey.
  apply in_map_iff in Hin. destruct Hin as (e0 & <- & _).
  destruct (isPrefix ["adminUsers"] (queryKey e0)) eqn:Hp; [reflexivity|].
  rewrite Hkey in Hp. discriminate Hp.
Qed.

Lemma invalidated_others_untouched (c : list CacheEntry) :
  othersUntouched c
    (map (fun e => if isPrefix ["adminUsers"] (queryKey e)
                   then {| queryKey := queryKey e; isInvalidated := true |}
                   else e) c).
Proof.
  split.
  - rewrite map_map. apply map_ext. intros e.
    now destruct (isPrefix ["adminUsers"] (queryKey e)).
  - intros e Hin Hp. apply in_map_iff. exists e. now rewrite Hp.
Qed.

(** C2, as the claim has it, fails: a caller who bans themselves while no
    session exists is turned away with the missing-session error, not the
    self-ban error. *)
Lemma C2_self_ban_without_session_counterexample :
  let caller := Some (mkUser "1") in
  let out := banUserMutation noSessionRemote caller "" ("1", "spam") emptyState in
  callerId caller = Some "1" /\
  fst out = Rejected (Error "No authenticated session found") /\
  fst out <> Rejected (Error "You cannot ban yourself").
Proof.
  cbv zeta. split; [reflexivity | split; [reflexivity | discriminate]].
Qed.

(** C2 (amended) — a ban whose target is the caller's own id is rejected
    after the session lookup and before any request to the remote store:
    with the self-ban error when a session exists, with the missing-session
    error when none does.  No ban is inserted, the cache is left as it was,
    nothing is invalidated, and the only notification is the failure one
    carrying the rejection's message. *)
Theorem C2_self_ban_rejected_before_any_write
        (remote : Remote) (user : option UnifiedUser) (searchTerm : string)
        (target reason : string) (st : State)
        (Hself : callerId user = Some target) :
  let out := banUserMutation remote user searchTerm (target, reason) st in
  let why := match session remote with
             | Some _ => "You cannot ban yourself"
             | None => "No authenticated session found"
             end in
  fst out = Rejected (Error why) /\
  cache (snd out) = cache st /\
  trace (snd out) =
    trace st ++ [ConsoleLog "🔧 UserManagement: Banning user:" (Some target);
                 GetSession; Toast (errorToast why)] /\
  forallb (fun ev => negb (isStoreRequest ev || isInvalidation ev || isSuccessToast ev))
          [ConsoleLog "🔧 UserManagement: Banning user:" (Some target);
           GetSession; Toast (errorToast why)] = true.
Proof.
  cbv zeta. run. rewrite Hself, strictEq_self.
  destruct (session remote) as [s|]; cbn [fst snd cache trace message Error];
    flatten_trace; repeat split; reflexivity.
Qed.

Lemma C2_self_ban_rejected_before_any_write_witness :
  let caller := Some (mkUser "1") in
  let out := banUserMutation sampleRemote caller "" ("1", "spam")
                             {| cache := sampleCache; trace := [] |} in
  callerId caller = Some "1" /\
  fst out = Rejected (Error "You cannot ban yourself") /\
  cache (snd out) = sampleCache /\
  trace (snd out) =
    [ConsoleLog "🔧 UserManagement: Banning user:" (Some "1");
     GetSession; Toast (errorToast "You cannot ban yourself")].
Proof.
  cbv zeta.
  assert (Hself : callerId (Some (mkUser "1")) = Some "1") by reflexivity.
  destruct (C2_self_ban_rejected_before_any_write
              sampleRemote (Some (mkUser "1")) "" "1" "spam"
              {| cache := sampleCache; trace := [] |} Hself)
    as (Hout & Hcache & Htrace & _).
  split; [exact Hself | split; [exact Hout | split; [exact Hcache | exact Htrace]]].
Defined.

(** C10 — when the caller is unknown (no user) while a session exists, the
    self-ban comparison is false for every target, so the guard never
    rejects, and the ban insert is issued with banned_by undefined. *)
Theorem C10_unknown_caller_guard_never_rejects
        (remote : Remote) (searchTerm : string) (target reason : string)
        (st : State)
        (Hsession : session remote <> None) :
  callerId None = None /\
  strictEq target (callerId None) = false /\
  exists after : list Event,
    trace (snd (banUserMutation remote None searchTerm (target, reason) st)) =
    trace st ++
      [ConsoleLog "🔧 UserManagement: Banning user:" (Some target);
       GetSession;
       Query (InsertBan target None
                        (if (reason =? "")%string then "No reason provided" else reason)
                        true)] ++ after.
Proof.
  split; [reflexivity | split; [reflexivity |]].
  run. destruct (session remote) as [s|]; [|contradiction].
  cbn [callerId option_map strictEq js_or_string].
  destruct (writeError remote) as [e|]; cbn [fst snd cache trace];
    flatten_trace; eexists; reflexivity.
Qed.

Lemma C10_unknown_caller_guard_never_rejects_witness :
  session sampleRemote <> None /\
  strictEq "2" (callerId None) = false /\
  exists after : list Event,
    trace (snd (banUserMutation sampleRemote None "" ("2", "") emptyState)) =
    [ConsoleLog "🔧 UserManagement: Banning user:" (Some "2");
     GetSession;
     Query (InsertBan "2" None "No reason provided" true)] ++ after.
Proof.
  assert (Hs : session sampleRemote <> None) by discriminate.
  destruct (C10_unknown_caller_guard_never_rejects sampleRemote "" "2" "" emptyState Hs)
    as (_ & Hguard & after & Htrace).
  split; [exact Hs | split; [exact Hguard |]].
  exists after. exact Htrace.
Defined.

(** C4 — each of the four mutations, once its write was issued (a session
    exists and, for the ban, the target is not the caller), whatever the
    caller and the search term of the hook are: the write is the one request
    the run sends to the store; when it succeeds the mutation resolves, every
    cached directory query — whatever its search term — is invalidated
    while the other cache entries stay as they were, and the one
    notification, shown last, is the success one; when it fails the mutation
    rejects with the remote error, the one notification, shown last, is the
    failure one carrying the error's message, or the mutation's fixed
    fallback text when the message is missing or empty, and the cache is
    left untouched with nothing invalidated. *)
Theorem C4_mutation_invalidates_and_notifies
        (remote : Remote) (user : option UnifiedUser) (searchTerm : string)
        (userId reason : string) (st : State)
        (Hsession : session remote <> None) :
  mutationContract (writeError remote) st
    (makeAdminMutation remote user searchTerm userId st)
    (UpsertRole userId "admin")
    "User has been made an admin." "Failed to make user admin." /\
  mutationContract (writeError remote) st
    (removeAdminMutation remote user searchTerm userId st)
    (DeleteRole userId "admin")
    "Admin privileges removed." "Failed to remove admin privileges." /\
  (strictEq userId (callerId user) = false ->
   mutationContract (writeError remote) st
     (banUserMutation remote user searchTerm (userId, reason) st)
     (InsertBan userId (callerId user)
                (if (reason =? "")%string then "No reason provided" else reason) true)
     "User has been banned." "Failed to ban user.") /\
  mutationContract (writeError remote) st
    (unbanUserMutation remote user searchTerm userId st)
    (DeactivateBans userId (clock remote 0) (clock remote 1))
    "User has been unbanned." "Failed to unban user.".
Proof.
  destruct (session remote) as [s|] eqn:Hs; [|contradiction].
  unfold mutationContract.
  repeat split; try intros Hother; run; rewrite Hs; try rewrite Hother;
    cbn [js_or_string];
    (destruct (writeError remote) as [e|]; cbn [fst snd cache trace];
     [ eexists; split; [flatten_trace; reflexivity|];
       repeat split; reflexivity
     | destruct user as [u|]; cbn [fst snd cache trace];
       (eexists; split; [flatten_trace; reflexivity|]);
       (split; [reflexivity|]); (split; [reflexivity|]);
       (split; [apply invalidated_all_stale|]);
       (split; [apply invalidated_others_untouched|]);
       repeat split; reflexivity ]).
Qed.

Lemma C4_mutation_invalidates_and_notifies_witness :
  let st := {| cache := sampleCache; trace := [] |} in
  let out := makeAdminMutation sampleRemote (Some (mkUser "1")) "bob" "2" st in
  session sampleRemote <> None /\
  fst out = Resolved tt /\
  allDirectoryStale (cache (snd out)) /\
  cache (snd out) =
    [ {| queryKey := ["adminUsers"; ""]; isInvalidated := true |};
      {| queryKey := ["adminUsers"; "bob"]; isInvalidated := true |};
      {| queryKey := ["leaderboard"]; isInvalidated := false |} ] /\
  filter isStoreRequest (trace (snd out)) = [Query (UpsertRole "2" "admin")] /\
  filter isToast (trace (snd out)) =
    [Toast (successToast "User has been made an admin.")].
Proof.
  cbv zeta.
  assert (Hs : session sampleRemote <> None) by discriminate.
  destruct (C4_mutation_invalidates_and_notifies
              sampleRemote (Some (mkUser "1")) "bob" "2" "spam"
              {| cache := sampleCache; trace := [] |} Hs)
    as ((issued & Htrace & Hreq & Hout & Hstale & _ & _ & Htoast & _) & _).
  cbn [trace app] in Htrace.
  split; [exact Hs | split; [exact Hout | split; [exact Hstale |]]].
  split; [reflexivity|].
  rewrite Htrace. split; [exact Hreq | exact Htoast].
Defined.

End DirectoryProps.

(** ** Further properties of the board renderer *)

Module BoardExtras.
Import Board.
Local Open Scope list_scope.

(** *** Glyphs *)

(** X1 — The glyph of a tile is empty for the empty kind only; a kind the
    component does not name gets the ordinary glyph of [POOP]; and two
    distinct named kinds never share a glyph. *)
Theorem glyph_table (t : TileType) :
  (getTileEmoji t = "" <-> t = EMPTY) /\
  (named t = false -> getTileEmoji t = getTileEmoji POOP) /\
  (forall u, named t = true -> named u = true ->
             getTileEmoji t = getTileEmoji u -> t = u).
Proof.
  split; [|split].
  - split; [destruct t; (reflexivity || discriminate) | now intros ->].
  - destruct t; (reflexivity || discriminate).
  - intros u Ht Hu. destruct t; try discriminate Ht;
      destruct u; try discriminate Hu; intros H;
        (reflexivity || (cbn in H; discriminate H)).
Qed.

Lemma glyph_table_witness :
  named (OTHER 7) = false /\ getTileEmoji (OTHER 7) = "💩" /\
  named WRAPPED = true /\
  (forall u, named u = true -> getTileEmoji WRAPPED = getTileEmoji u -> WRAPPED = u).
Proof.
  split; [reflexivity|].
  split; [exact (proj1 (proj2 (glyph_table (OTHER 7))) eq_refl)|].
  split; [reflexivity|].
  intros u Hu. exact (proj2 (proj2 (glyph_table WRAPPED)) u eq_refl Hu).
Defined.

(** *** Accents *)

(** X2 — The accent of a special piece is layered on whatever base state the
    cell has: the class name carries the line accent exactly for the two
    striped kinds, the area accent exactly for the wrapped kind and the
    rainbow accent exactly for the colour bomb, whatever the selection, the
    hints and the presentation mode are. *)
Theorem accent_follows_kind_only
        (selectedTile : option Pos) (hintTiles : list Pos) (isMobile : bool)
        (r c : Z) (tile : TileType) :
  let cls := getTileClassName selectedTile hintTiles isMobile r c tile in
  has_class "shadow-blue-500/30" cls =
    (tile_eqb tile STRIPED_HORIZONTAL || tile_eqb tile STRIPED_VERTICAL) /\
  has_class "shadow-purple-500/30" cls = tile_eqb tile WRAPPED /\
  has_class "shadow-rainbow" cls = tile_eqb tile COLOR_BOMB.
Proof.
  unfold getTileClassName.
  destruct (isSelected selectedTile r c), (isHinted hintTiles r c), tile, isMobile;
    repeat split; vm_compute; reflexivity.
Qed.

(** *** Hints *)

Lemma isHinted_spec (hintTiles : list Pos) (r c : Z) :
  isHinted hintTiles r c = true <-> In (mkPos r c) hintTiles.
Proof.
  unfold isHinted. rewrite existsb_exists. split.
  - intros ([hr hc] & Hin & Heq). cbn [row col] in Heq.
    apply andb_true_iff in Heq. destruct Heq as [Hr Hc].
    apply Z.eqb_eq in Hr, Hc. now subst.
  - intros Hin. exists (mkPos r c). split; [exact Hin|].
    cbn [row col]. now rewrite !Z.eqb_refl.
Qed.

(** X3 — The hint list is read as a set: two lists with the same members, in any
    order and with any repetitions, give every cell the same class name. *)
Theorem hints_are_a_set
        (selectedTile : option Pos) (hints1 hints2 : list Pos) (isMobile : bool)
        (r c : Z) (tile : TileType)
        (Hsame : forall p, In p hints1 <-> In p hints2) :
  getTileClassName selectedTile hints1 isMobile r c tile =
  getTileClassName selectedTile hints2 isMobile r c tile.
Proof.
  unfold getTileClassName.
  assert (Heq : isHinted hints1 r c = isHinted hints2 r c).
  { apply eq_true_iff_eq. rewrite !isHinted_spec. apply Hsame. }
  now rewrite Heq.
Qed.

Lemma hints_are_a_set_witness :
  let hints1 := [mkPos 1 1; mkPos 0 2; mkPos 1 1] in
  let hints2 := [mkPos 0 2; mkPos 1 1] in
  (forall p, In p hints1 <-> In p hints2) /\
  getTileClassName None hints1 true 1 1 FART =
  getTileClassName None hints2 true 1 1 FART.
Proof.
  intros hints1 hints2.
  assert (Hsame : forall p, In p hints1 <-> In p hints2).
  { intros p. unfold hints1, hints2. cbn [In]. tauto. }
  split; [exact Hsame|].
  exact (hints_are_a_set None hints1 hints2 true 1 1 FART Hsame).
Defined.

(** *** The grid *)

Lemma mapi_from_nth {A B : Type} (f : Z -> A -> B) (xs : list A) :
  forall (k : Z) (j : nat),
    nth_error (mapi_from k f xs) j =
    option_map (f (k + Z.of_nat j)) (nth_error xs j).
Proof.
  induction xs as [|x xs IH]; intros k j.
  - now destruct j.
  - destruct j as [|j]; cbn [mapi_from nth_error option_map].
    + now rewrite Z.add_0_r.
    + rewrite IH. now replace (k + 1 + Z.of_nat j) with (k + Z.of_nat (S j)) by lia.
Qed.

Lemma renderRows_none
      (board : option (list (option (list TileType))))
      (selectedTile : option Pos) (hintTiles : list Pos)
      (animations : option (list AnimationEvent)) (isMobile : bool)
      (rows : list (option (list TileType))) :
  forall k,
    renderRows board selectedTile hintTiles animations isMobile k rows = None <->
    existsb (fun r => match r with None => true | Some _ => false end) rows = true.
Proof.
  induction rows as [|[r|] rows IH]; intros k; cbn [renderRows existsb orb].
  - split; discriminate.
  - rewrite <- (IH (k + 1)).
    destruct (renderRows _ _ _ _ _ (k + 1) rows); split; congruence.
  - tauto.
Qed.

Lemma renderRows_nth
      (board : option (list (option (list TileType))))
      (selectedTile : option Pos) (hintTiles : list Pos)
      (animations : option (list AnimationEvent)) (isMobile : bool)
      (rows : list (option (list TileType))) :
  forall k out i,
    renderRows board selectedTile hintTiles animations isMobile k rows = Some out ->
    nth_error out i =
    match nth_error rows i with
    | Some (Some r) =>
        Some (mapi_from 0 (renderCell board selectedTile hintTiles animations
                                      isMobile (k + Z.of_nat i)) r)
    | _ => None
    end.
Proof.
  induction rows as [|[r|] rows IH]; intros k out i Hout; cbn [renderRows] in Hout.
  - injection Hout as <-. now destruct i.
  - destruct (renderRows _ _ _ _ _ (k + 1) rows) as [out'|] eqn:Hrest; [|discriminate].
    injection Hout as <-.
    destruct i as [|i]; cbn [nth_error].
    + now rewrite Z.add_0_r.
    + rewrite (IH _ _ i Hrest).
      now replace (k + 1 + Z.of_nat i) with (k + Z.of_nat (S i)) by lia.
  - discriminate.
Qed.

Lemma gridOf_rendered
      (board : option (list (option (list TileType))))
      (selectedTile : option Pos) (hintTiles : list Pos)
      (animations : option (list AnimationEvent)) (isMobile : bool)
      (cells : list (list Cell)) :
  gridOf (EnhancedGameBoard board selectedTile hintTiles animations isMobile)
    = Some cells ->
  exists rows,
    board = Some rows /\
    renderRows board selectedTile hintTiles animations isMobile 0 rows = Some cells.
Proof.
  unfold EnhancedGameBoard.
  destruct board as [rows|]; [|discriminate].
  destruct rows as [|[first|] rest]; cbn [length Nat.eqb nth_error gridOf];
    try discriminate.
  destruct first as [|tile first]; cbn [length Nat.eqb gridOf]; [discriminate|].
  destruct (renderRows _ _ _ _ _ 0 _) as [out|] eqn:Hout; cbn [gridOf];
    [|discriminate].
  intros [= <-]. eexists. split; [reflexivity | exact Hout].
Qed.

(** The cell the grid has at row [i], column [j] is the rendering of the
    board's tile there, and there is a cell exactly where there is a tile. *)
Lemma cellAt_rendered
      (board : option (list (option (list TileType))))
      (selectedTile : option Pos) (hintTiles : list Pos)
      (animations : option (list AnimationEvent)) (isMobile : bool)
      (cells : list (list Cell)) (i j : nat) :
  gridOf (EnhancedGameBoard board selectedTile hintTiles animations isMobile)
    = Some cells ->
  cellAt cells i j =
  option_map (renderCell board selectedTile hintTiles animations isMobile
                         (Z.of_nat i) (Z.of_nat j))
             (tileAt board i j).
Proof.
  intros Hgrid.
  destruct (gridOf_rendered _ _ _ _ _ _ Hgrid) as (rows & -> & Hrows).
  unfold cellAt, tileAt.
  rewrite (renderRows_nth _ _ _ _ _ _ _ _ i Hrows).
  destruct (nth_error rows i) as [[r|]|]; try reflexivity.
  now rewrite mapi_from_nth.
Qed.

Lemma click_on_tile (board : option (list (option (list TileType))))
      (i j : nat) (tile : TileType) :
  tileAt board i j = Some tile ->
  handleTileClick board (Z.of_nat i) (Z.of_nat j) =
  if tile_eqb tile BLOCKED || tile_eqb tile EMPTY
  then Swallowed else Forwarded (Z.of_nat i) (Z.of_nat j).
Proof.
  unfold tileAt, handleTileClick, js_index.
  destruct board as [rows|]; [|discriminate].
  replace (Z.of_nat i <? 0) with false by (symmetry; apply Z.ltb_ge; lia).
  replace (Z.of_nat j <? 0) with false by (symmetry; apply Z.ltb_ge; lia).
  rewrite !Nat2Z.id.
  destruct (nth_error rows i) as [[r|]|]; try discriminate.
  intros ->. now destruct tile.
Qed.

(** X4 — When the component shows a grid, the grid has the shape of the board —
    a cell at row i, column j exactly where the board has a tile — and the
    cell shows the tile's glyph; clicking it never raises: the click is
    swallowed when the tile is blocked or empty, and otherwise forwarded
    with exactly the cell's own row and column. *)
Theorem grid_cells_mirror_the_board
        (board : option (list (option (list TileType))))
        (selectedTile : option Pos) (hintTiles : list Pos)
        (animations : option (list AnimationEvent)) (isMobile : bool)
        (cells : list (list Cell)) (i j : nat)
        (Hgrid : gridOf (EnhancedGameBoard board selectedTile hintTiles
                                           animations isMobile) = Some cells) :
  match tileAt board i j with
  | None => cellAt cells i j = None
  | Some tile =>
      exists cell,
        cellAt cells i j = Some cell /\
        glyph cell = getTileEmoji tile /\
        onClick cell =
          (if tile_eqb tile BLOCKED || tile_eqb tile EMPTY
           then Swallowed else Forwarded (Z.of_nat i) (Z.of_nat j))
  end.
Proof.
  rewrite (cellAt_rendered _ _ _ _ _ _ i j Hgrid).
  destruct (tileAt board i j) as [tile|] eqn:Htile; cbn [option_map]; [|reflexivity].
  eexists. split; [reflexivity|]. split; [reflexivity|].
  cbn [onClick renderCell]. now apply click_on_tile.
Qed.

Lemma grid_cells_mirror_the_board_witness :
  let board := Some [Some [POOP; BLOCKED]; Some [EMPTY; BELL]] in
  exists cells,
    gridOf (EnhancedGameBoard board None [] None false) = Some cells /\
    (exists cell, cellAt cells 1 1 = Some cell /\ glyph cell = "🔔" /\
                  onClick cell = Forwarded 1 1) /\
    (exists cell, cellAt cells 0 1 = Some cell /\ glyph cell = "🚫" /\
                  onClick cell = Swallowed) /\
    cellAt cells 2 0 = None.
Proof.
  intros board.
  destruct (gridOf (EnhancedGameBoard board None [] None false)) as [cells|] eqn:Hgrid;
    [|discriminate Hgrid].
  exists cells. split; [reflexivity|].
  split; [exact (grid_cells_mirror_the_board board None [] None false cells 1 1 Hgrid)|].
  split; [exact (grid_cells_mirror_the_board board None [] None false cells 0 1 Hgrid)|].
  exact (grid_cells_mirror_the_board board None [] None false cells 2 0 Hgrid).
Defined.

(** X5 — The three outcomes of the component are told apart by the board alone:
    it shows the placeholder exactly for the boards the guard turns away,
    raises exactly for a board that passes the guard and has a null row,
    and shows a grid otherwise. *)
Theorem outcome_is_decided_by_the_board
        (board : option (list (option (list TileType))))
        (selectedTile : option Pos) (hintTiles : list Pos)
        (animations : option (list AnimationEvent)) (isMobile : bool) :
  let out := EnhancedGameBoard board selectedTile hintTiles animations isMobile in
  (out = Returned Loading <-> degenerate board = true) /\
  (out = Threw <-> degenerate board = false /\ hasNullRow board = true) /\
  (gridOf out <> None <-> degenerate board = false /\ hasNullRow board = false).
Proof.
  cbv zeta. unfold EnhancedGameBoard.
  destruct board as [rows|];
    [|cbn; repeat split; try tauto; try discriminate; intros []; discriminate].
  destruct rows as [|[first|] rest]; cbn [length Nat.eqb nth_error gridOf degenerate];
    try (repeat split; try tauto; try discriminate; intros []; discriminate).
  destruct first as [|tile first]; cbn [length Nat.eqb gridOf];
    try (repeat split; try tauto; try discriminate; intros []; discriminate).
  pose proof (renderRows_none (Some (Some (tile :: first) :: rest)) selectedTile
                              hintTiles animations isMobile
                              (Some (tile :: first) :: rest) 0) as Hnone.
  unfold hasNullRow.
  destruct (renderRows _ _ _ _ _ 0 _) as [out|]; cbn [gridOf].
  - destruct (existsb _ _).
    + exfalso. destruct Hnone as [_ H]. specialize (H eq_refl). discriminate H.
    + repeat split; try discriminate; try tauto; intros []; discriminate.
  - destruct Hnone as [H _]. rewrite (H eq_refl).
    repeat split; try discriminate; try tauto; intros []; discriminate.
Qed.

(** *** Keys *)

Lemma show_number_inj (a b : Z) : show_number a = show_number b -> a = b.
Proof.
  unfold show_number. intros Heq.
  assert (Hnil : forall z, Z.to_int z <> Decimal.Pos Decimal.Nil /\
                           Z.to_int z <> Decimal.Neg Decimal.Nil).
  { intros [|p|p]; cbn; split; try discriminate;
      intros [= H]; now apply (DecimalPos.Unsigned.to_uint_nonnil p). }
  apply (f_equal NilZero.int_of_string) in Heq.
  rewrite !NilZero.isi in Heq by apply Hnil.
  injection Heq as Heq.
  now apply DecimalZ.to_int_inj.
Qed.

Lemma digits_have_no_dash (d : Decimal.uint) :
  mentions "-" (NilEmpty.string_of_uint d) = false.
Proof.
  induction d; cbn [NilEmpty.string_of_uint mentions]; try reflexivity;
    rewrite IHd; reflexivity.
Qed.

Lemma show_number_has_no_dash (n : Z) :
  0 <= n -> mentions "-" (show_number n) = false.
Proof.
  intros Hn. unfold show_number.
  destruct n as [|p|p]; [reflexivity | | lia].
  cbn [Z.to_int NilZero.string_of_int]. unfold NilZero.string_of_uint.
  pose proof (digits_have_no_dash (Pos.to_uint p)) as Hd.
  now destruct (Pos.to_uint p).
Qed.

Lemma split_at_dash (u u' v v' : string) :
  mentions "-" u = false -> mentions "-" u' = false ->
  (u ++ String "-" v)%string = (u' ++ String "-" v')%string ->
  u = u' /\ v = v'.
Proof.
  revert u'. induction u as [|ch u IH]; intros [|ch' u'] Hu Hu' Heq;
    cbn [String.append mentions] in *.
  - now injection Heq as ->.
  - injection Heq as <- _. apply orb_false_iff in Hu'. destruct Hu' as [Hc _].
    now rewrite Ascii.eqb_refl in Hc.
  - injection Heq as -> _. apply orb_false_iff in Hu. destruct Hu as [Hc _].
    now rewrite Ascii.eqb_refl in Hc.
  - injection Heq as -> Heq.
    apply orb_false_iff in Hu, Hu'.
    destruct (IH u' (proj2 Hu) (proj2 Hu') Heq) as [-> ->]. now split.
Qed.

(** X6 — The keys of the cells of a grid are pairwise distinct: two positions of
    the grid whose cells have the same key are the same position. *)
Theorem grid_keys_are_unique
        (board : option (list (option (list TileType))))
        (selectedTile : option Pos) (hintTiles : list Pos)
        (animations : option (list AnimationEvent)) (isMobile : bool)
        (cells : list (list Cell)) (i j i' j' : nat) (cell cell' : Cell)
        (Hgrid : gridOf (EnhancedGameBoard board selectedTile hintTiles
                                           animations isMobile) = Some cells)
        (Hcell : cellAt cells i j = Some cell)
        (Hcell' : cellAt cells i' j' = Some cell')
        (Hkey : key cell = key cell') :
  i = i' /\ j = j'.
Proof.
  rewrite (cellAt_rendered _ _ _ _ _ _ i j Hgrid) in Hcell.
  rewrite (cellAt_rendered _ _ _ _ _ _ i' j' Hgrid) in Hcell'.
  destruct (tileAt board i j) as [tile|]; [|discriminate].
  destruct (tileAt board i' j') as [tile'|]; [|discriminate].
  cbn [option_map] in Hcell, Hcell'.
  injection Hcell as <-. injection Hcell' as <-.
  cbn [key renderCell] in Hkey.
  apply split_at_dash in Hkey;
    try (apply show_number_has_no_dash; lia).
  destruct Hkey as [Hi Hj].
  apply show_number_inj in Hi, Hj. lia.
Qed.

Lemma grid_keys_are_unique_witness :
  let board := Some [Some [POOP; POOP]; Some [POOP; POOP]] in
  exists cells cell cell',
    gridOf (EnhancedGameBoard board None [] None true) = Some cells /\
    cellAt cells 0 1 = Some cell /\
    cellAt cells 1 0 = Some cell' /\
    key cell <> key cell'.
Proof.
  intros board.
  destruct (gridOf (EnhancedGameBoard board None [] None true)) as [cells|] eqn:Hgrid;
    [|discriminate Hgrid].
  destruct (cellAt cells 0 1) as [cell|] eqn:Hcell;
    [|injection Hgrid as <-; discriminate Hcell].
  destruct (cellAt cells 1 0) as [cell'|] eqn:Hcell';
    [|injection Hgrid as <-; discriminate Hcell'].
  exists cells, cell, cell'.
  split; [reflexivity | split; [exact Hcell | split; [exact Hcell' |]]].
  intros Hkey.
  destruct (grid_keys_are_unique board None [] None true cells 0 1 1 0 cell cell'
                                 Hgrid Hcell Hcell' Hkey) as [H _].
  discriminate H.
Defined.

(** *** Animation events elsewhere *)

Lemma filter_idem {A : Type} (f : A -> bool) (l : list A) :
  filter f (filter f l) = filter f l.
Proof.
  induction l as [|x l IH]; [reflexivity|].
  cbn [filter]. destruct (f x) eqn:Hx; [|exact IH].
  cbn [filter]. now rewrite Hx, IH.
Qed.

Lemma effect_of_covering_sublist (anims : list AnimationEvent) (r c : Z) :
  getAnimationClasses (Some anims) r c =
  getAnimationClasses (Some (filter (covers r c) anims)) r c.
Proof.
  unfold getAnimationClasses. rewrite filter_idem.
  destruct anims as [|x anims]; [reflexivity|].
  cbn [length Nat.eqb].
  destruct (filter (covers r c) (x :: anims)); reflexivity.
Qed.

(** X7 — The effect on a cell depends on the events that cover the cell only:
    events on other cells, and events without tiles, can be dropped from
    the list or appended to it without changing it; and appending an event
    that covers the cell makes that event's effect the cell's effect. *)
Theorem effect_ignores_events_elsewhere
        (anims : list AnimationEvent) (e : AnimationEvent) (r c : Z) :
  getAnimationClasses (Some anims) r c =
    getAnimationClasses (Some (filter (covers r c) anims)) r c /\
  (tiles e = None -> covers r c e = false) /\
  (covers r c e = false ->
   getAnimationClasses (Some (anims ++ [e])) r c =
   getAnimationClasses (Some anims) r c) /\
  (covers r c e = true ->
   getAnimationClasses (Some (anims ++ [e])) r c = animationEffect (type e)).
Proof.
  split; [apply effect_of_covering_sublist|].
  split; [unfold covers; now intros ->|].
  split; intros He.
  - rewrite (effect_of_covering_sublist (anims ++ [e])).
    rewrite filter_app. cbn [filter]. rewrite He, app_nil_r.
    symmetry. apply effect_of_covering_sublist.
  - apply BoardProps.latest_of_relevant with (older := filter (covers r c) anims).
    rewrite filter_app. cbn [filter]. now rewrite He.
Qed.

Lemma effect_ignores_events_elsewhere_witness :
  let drop00 := {| id := "d"; type := "drop"; tiles := Some [mkPos 0 0];
                   cascadeMultiplier := None |} in
  let cascade := {| id := "c"; type := "cascade"; tiles := None;
                    cascadeMultiplier := Some "2.0" |} in
  let match11 := {| id := "m"; type := "match"; tiles := Some [mkPos 1 1];
                    cascadeMultiplier := None |} in
  covers 0 0 cascade = false /\
  getAnimationClasses (Some ([match11; drop00] ++ [cascade])) 0 0 =
    getAnimationClasses (Some [match11; drop00]) 0 0 /\
  covers 1 1 match11 = true /\
  getAnimationClasses (Some ([drop00; cascade] ++ [match11])) 1 1 = "animate-ping ".
Proof.
  intros drop00 cascade match11.
  pose proof (effect_ignores_events_elsewhere [match11; drop00] cascade 0 0)
    as (_ & Hnull & Hskip & _).
  pose proof (effect_ignores_events_elsewhere [drop00; cascade] match11 1 1)
    as (_ & _ & _ & Hlast).
  split; [exact (Hnull eq_refl)|].
  split; [exact (Hskip (Hnull eq_refl))|].
  split; [reflexivity | exact (Hlast eq_refl)].
Defined.

(** *** Effects on a rendered cell *)

(** X8 — On a rendered cell the flash and the bounce class appear exactly when
    the cell's animation effect is the flash or the bounce.  The pulse class
    is shared: it appears when the effect is the pulse of an invalid move,
    and also on a hinted cell that is not selected and on a colour bomb. *)
Theorem cell_effect_classes
        (board : option (list (option (list TileType))))
        (selectedTile : option Pos) (hintTiles : list Pos)
        (animations : option (list AnimationEvent)) (isMobile : bool)
        (r c : Z) (tile : TileType) :
  let cls := className (renderCell board selectedTile hintTiles animations
                                   isMobile r c tile) in
  let effect := getAnimationClasses animations r c in
  has_class "animate-ping" cls = (effect =? "animate-ping ")%string /\
  has_class "animate-bounce" cls = (effect =? "animate-bounce ")%string /\
  has_class "animate-pulse" cls =
    ((effect =? "animate-pulse ")%string
     || (negb (isSelected selectedTile r c) && isHinted hintTiles r c)
     || tile_eqb tile COLOR_BOMB).
Proof.
  cbv zeta. unfold renderCell. cbn [className]. unfold getTileClassName.
  pose proof (BoardProps.animation_classes_range animations r c) as Hrange.
  cbn [In] in Hrange.
  destruct Hrange as [<- | [<- | [<- | [<- | []]]]];
    destruct (isSelected selectedTile r c), (isHinted hintTiles r c), tile, isMobile;
    repeat split; vm_compute; reflexivity.
Qed.

End BoardExtras.

(** ** Further properties of the user directory hook *)

Module DirectoryExtras.
Import Directory.
Import DirectoryProps.
Local Open Scope list_scope.

(** *** Failures of the fetch *)

(** X9 — Without a session the fetch rejects with the missing-session error
    right after the session lookup: no read reaches the remote store, not
    even the profile read, and the cache is left as it was. *)
Theorem fetch_without_session_asks_nothing
        (remote : Remote) (user : option UnifiedUser) (searchTerm : string)
        (st : State)
        (Hnone : session remote = None) :
  let out := queryFn remote user searchTerm st in
  fst out = Rejected (Error "No authenticated session found") /\
  cache (snd out) = cache st /\
  exists issued,
    trace (snd out) = trace st ++ issued /\
    filter isStoreRequest issued = [] /\
    filter (fun ev => match ev with GetSession => true | _ => false end) issued
      = [GetSession].
Proof.
  cbv zeta. run. rewrite Hnone. cbn [fst snd cache trace].
  split; [reflexivity | split; [reflexivity |]].
  eexists. split; [flatten_trace; reflexivity|]. split; reflexivity.
Qed.

Lemma fetch_without_session_asks_nothing_witness :
  session noSessionRemote = None /\
  fst (queryFn noSessionRemote (Some (mkUser "1")) "bob" emptyState) =
    Rejected (Error "No authenticated session found").
Proof.
  split; [reflexivity|].
  exact (proj1 (fetch_without_session_asks_nothing
                  noSessionRemote (Some (mkUser "1")) "bob" emptyState eq_refl)).
Defined.

(** X10 — When the profile read comes back with an error the fetch rejects with
    that very error, logs it once, and issues no satellite read — also when
    the response carries rows beside the error. *)
Theorem profile_error_aborts_the_fetch
        (remote : Remote) (user : option UnifiedUser) (searchTerm : string)
        (st : State) (e : JsError)
        (Hsession : session remote <> None)
        (Herror : error (profilesResp remote) = Some e) :
  let out := queryFn remote user searchTerm st in
  fst out = Rejected e /\
  cache (snd out) = cache st /\
  exists issued orFilter,
    trace (snd out) = trace st ++ issued /\
    filter isStoreRequest issued = [Query (SelectProfiles orFilter)] /\
    filter isErrorLog issued =
      [ConsoleError "❌ UserManagement: Profile fetch error:" e].
Proof.
  cbv zeta. run.
  destruct (session remote) as [s|]; [|contradiction].
  rewrite Herror. cbn [fst snd cache trace].
  split; [reflexivity | split; [reflexivity |]].
  do 2 eexists. split; [flatten_trace; reflexivity|]. split; reflexivity.
Qed.

Lemma profile_error_aborts_the_fetch_witness :
  let remote :=
    {| session := Some (mkSession "token");
       profilesResp := {| data := Some [profile1];
                          error := Some (Error "statement timeout") |};
       rolesResp := ok []; creditsResp := ok []; socialResp := ok [];
       walletsResp := ok []; bansResp := ok [];
       writeError := None; clock := fun _ => "" |} in
  session remote <> None /\
  fst (queryFn remote None "" emptyState) = Rejected (Error "statement timeout").
Proof.
  intros remote.
  assert (Hs : session remote <> None) by discriminate.
  split; [exact Hs|].
  exact (proj1 (profile_error_aborts_the_fetch remote None "" emptyState
                                               (Error "statement timeout") Hs eq_refl)).
Defined.

(** *** What the fetch asks for *)

Lemma queryFn_full_trace (remote : Remote) (user : option UnifiedUser)
      (searchTerm : string) (st : State) (p : Profile) (ps : list Profile) :
  session remote <> None ->
  error (profilesResp remote) = None ->
  data (profilesResp remote) = Some (p :: ps) ->
  exists orFilter,
    (orFilter = None <-> searchTerm = "") /\
    trace (snd (queryFn remote user searchTerm st)) =
    trace st ++
      [ConsoleLog "🔍 UserManagement: Fetching enhanced user data, current user:"
                  (callerId user);
       GetSession; Query (SelectProfiles orFilter);
       Query (SelectRoles (map profile_id (p :: ps)))] ++
      errorLog "❌ UserManagement: Roles fetch error:" (error (rolesResp remote)) ++
      [Query (SelectCredits (map profile_id (p :: ps)))] ++
      errorLog "❌ UserManagement: Credits fetch error:" (error (creditsResp remote)) ++
      [Query (SelectSocialAccounts (map profile_id (p :: ps)))] ++
      errorLog "❌ UserManagement: Social accounts fetch error:"
               (error (socialResp remote)) ++
      [Query (SelectWallets (map profile_id (p :: ps)))] ++
      errorLog "❌ UserManagement: Wallets fetch error:" (error (walletsResp remote)) ++
      [Query (SelectActiveBans (map profile_id (p :: ps)))] ++
      errorLog "❌ UserManagement: Bans fetch error:" (error (bansResp remote)).
Proof.
  intros Hsession Herror Hdata. run.
  destruct (session remote) as [s|]; [|contradiction].
  rewrite Herror, Hdata. cbn [length Nat.eqb].
  rewrite !logIfError_run. cbn [fst snd cache trace].
  eexists. split; [|unfold errorLog; flatten_trace; reflexivity].
  destruct (String.eqb_spec searchTerm ""); split; congruence.
Qed.

Lemma errorLog_no_request (msg : string) (err : option JsError) :
  filter isStoreRequest (errorLog msg err) = [].
Proof. now destruct err. Qed.

Lemma errorLog_count (msg : string) (err : option JsError) :
  filter isErrorLog (errorLog msg err) = errorLog msg err.
Proof. now destruct err. Qed.

Lemma errorLog_length (msg msg' : string) (err : option JsError) :
  length (errorLog msg err) = length (errorLog msg' err).
Proof. now destruct err. Qed.

(** X11 — When profiles were fetched the fetch issues, after the profile read,
    exactly one read per satellite — roles, credits, social accounts,
    wallets, active bans, in this order — each scoped to the ids of the
    fetched profiles in profile order, whether or not earlier reads failed;
    the profile read carries a filter exactly when the search term is not
    empty; and one error is logged per satellite read that came back with
    one. *)
Theorem fetch_issues_one_read_per_satellite
        (remote : Remote) (user : option UnifiedUser) (searchTerm : string)
        (st : State) (p : Profile) (ps : list Profile)
        (Hsession : session remote <> None)
        (Herror : error (profilesResp remote) = None)
        (Hdata : data (profilesResp remote) = Some (p :: ps)) :
  exists issued orFilter,
    trace (snd (queryFn remote user searchTerm st)) = trace st ++ issued /\
    (orFilter = None <-> searchTerm = "") /\
    filter isStoreRequest issued =
      Query (SelectProfiles orFilter) :: satelliteReads (map profile_id (p :: ps)) /\
    length (filter isErrorLog issued) = satelliteErrors remote.
Proof.
  destruct (queryFn_full_trace remote user searchTerm st p ps Hsession Herror Hdata)
    as (orFilter & Hfilter & Htrace).
  eexists. exists orFilter. split; [exact Htrace|]. split; [exact Hfilter|].
  split.
  - unfold satelliteReads.
    repeat (rewrite ?filter_app, ?errorLog_no_request;
            cbn [app filter isStoreRequest]).
    reflexivity.
  - repeat (rewrite ?filter_app, ?errorLog_count;
            cbn [app filter isErrorLog]).
    unfold satelliteErrors. rewrite !length_app.
    rewrite (errorLog_length _ "" (error (rolesResp remote))),
            (errorLog_length _ "" (error (creditsResp remote))),
            (errorLog_length _ "" (error (socialResp remote))),
            (errorLog_length _ "" (error (walletsResp remote))),
            (errorLog_length _ "" (error (bansResp remote))).
    reflexivity.
Qed.

Lemma fetch_issues_one_read_per_satellite_witness :
  session degradedRemote <> None /\
  exists issued orFilter,
    trace (snd (queryFn degradedRemote (Some (mkUser "1")) "" emptyState))
      = [] ++ issued /\
    (orFilter = None <-> "" = "") /\
    filter isStoreRequest issued =
      Query (SelectProfiles orFilter) :: satelliteReads ["1"; "2"] /\
    length (filter isErrorLog issued) = 2%nat.
Proof.
  assert (Hs : session degradedRemote <> None) by discriminate.
  split; [exact Hs|].
  exact (fetch_issues_one_read_per_satellite
           degradedRemote (Some (mkUser "1")) "" emptyState profile1 [profile2]
           Hs eq_refl eq_refl).
Defined.

Lemma errorLog_harmless (msg : string) (err : option JsError) :
  forallb (fun ev => negb (isWrite ev || isInvalidation ev || isToast ev))
          (errorLog msg err) = true.
Proof. now destruct err. Qed.

(** X12 — The fetch only reads: on every path — no session, failed profile read,
    no profiles, failed satellite reads — it leaves the query cache as it
    was, and it issues no write to the store, no invalidation and no
    notification. *)
Theorem fetch_is_read_only
        (remote : Remote) (user : option UnifiedUser) (searchTerm : string)
        (st : State) :
  let out := queryFn remote user searchTerm st in
  cache (snd out) = cache st /\
  exists issued,
    trace (snd out) = trace st ++ issued /\
    forallb (fun ev => negb (isWrite ev || isInvalidation ev || isToast ev))
            issued = true.
Proof.
  cbv zeta.
  destruct (session remote) as [s|] eqn:Hs.
  - destruct (error (profilesResp remote)) as [e|] eqn:He.
    + run. rewrite Hs, He. cbn [fst snd cache trace].
      split; [reflexivity|]. eexists. split; [flatten_trace; reflexivity | reflexivity].
    + assert (Hsession : session remote <> None) by congruence.
      split; [apply (queryFn_resolves remote user searchTerm st Hsession He)|].
      destruct (data (profilesResp remote)) as [[|p ps]|] eqn:Hd.
      * run. rewrite Hs, He, Hd. cbn [length Nat.eqb fst snd cache trace].
        eexists. split; [flatten_trace; reflexivity | reflexivity].
      * destruct (queryFn_full_trace remote user searchTerm st p ps Hsession He Hd)
          as (orFilter & _ & Htrace).
        eexists. split; [exact Htrace|].
        rewrite !forallb_app, !errorLog_harmless. reflexivity.
      * run. rewrite Hs, He, Hd. cbn [fst snd cache trace].
        eexists. split; [flatten_trace; reflexivity | reflexivity].
  - run. rewrite Hs. cbn [fst snd cache trace].
    split; [reflexivity|]. eexists. split; [flatten_trace; reflexivity | reflexivity].
Qed.

(** *** Every path of the mutations *)

(** The paths of one mutation run: the session, then for the ban the
    self-ban guard, then the answer to the write. *)
Ltac mutation_paths remote user name userId :=
  destruct name as [| |reason|]; cbn [runMutation]; run;
  destruct (session remote) as [s|] eqn:?; cbn [fst snd cache trace];
  try (destruct (strictEq userId (callerId user)) eqn:?; cbn [fst snd cache trace]);
  try (destruct (writeError remote) as [e|] eqn:?; cbn [fst snd cache trace]);
  try (destruct user as [u|]; cbn [fst snd cache trace]).

Lemma cacheGrows_refl (c : list CacheEntry) : cacheGrows c c.
Proof.
  induction c as [|e c IH]; constructor; [now split | exact IH].
Qed.

Lemma cacheGrows_invalidated (c : list CacheEntry) :
  cacheGrows c
    (map (fun e => if isPrefix ["adminUsers"] (queryKey e)
                   then {| queryKey := queryKey e; isInvalidated := true |}
                   else e) c).
Proof.
  induction c as [|e c IH]; cbn [map]; constructor; [|exact IH].
  destruct (isPrefix ["adminUsers"] (queryKey e)); now split.
Qed.

(** X14 — Whatever a mutation does — no session, self-ban, failed or successful
    write — the query cache keeps its entries in their order and no entry
    loses its staleness mark; and a mutation that rejects leaves the cache
    exactly as it was. *)
Theorem mutations_never_unmark_the_cache
        (remote : Remote) (user : option UnifiedUser) (searchTerm : string)
        (name : MutationName) (userId : string) (st : State) :
  let out := runMutation remote user searchTerm name userId st in
  cacheGrows (cache st) (cache (snd out)) /\
  (fst out <> Resolved tt -> cache (snd out) = cache st).
Proof.
  cbv zeta.
  mutation_paths remote user name userId;
    (split; [first [apply cacheGrows_refl | apply cacheGrows_invalidated]
            | first [reflexivity | now intros []]]).
Qed.

Lemma mutations_never_unmark_the_cache_witness :
  let stale := [ {| queryKey := ["adminUsers"; "bob"]; isInvalidated := true |} ] in
  let remote :=
    {| session := Some (mkSession "token");
       profilesResp := ok []; rolesResp := ok []; creditsResp := ok [];
       socialResp := ok []; walletsResp := ok []; bansResp := ok [];
       writeError := Some (Error "duplicate key"); clock := fun _ => "" |} in
  let out := runMutation remote None "" UnbanUser "2"
                         {| cache := stale; trace := [] |} in
  fst out <> Resolved tt /\ cache (snd out) = stale.
Proof.
  intros stale remote out.
  assert (Hrej : fst out <> Resolved tt) by discriminate.
  split; [exact Hrej|].
  exact (proj2 (mutations_never_unmark_the_cache
                  remote None "" UnbanUser "2" {| cache := stale; trace := [] |})
               Hrej).
Defined.

(** X15 — Every mutation run, on every path, shows exactly one notification and
    sends at most one request to the store, which is a write; it resolves
    exactly when the notification is the success one, and it invalidates the
    directory queries exactly then; and it never resolves without having
    sent its write. *)
Theorem mutation_notifies_exactly_once
        (remote : Remote) (user : option UnifiedUser) (searchTerm : string)
        (name : MutationName) (userId : string) (st : State) :
  let out := runMutation remote user searchTerm name userId st in
  exists issued,
    trace (snd out) = trace st ++ issued /\
    length (filter isToast issued) = 1%nat /\
    (length (filter isStoreRequest issued) <= 1)%nat /\
    filter isStoreRequest issued = filter isWrite issued /\
    (fst out = Resolved tt <-> existsb isSuccessToast issued = true) /\
    existsb isInvalidation issued = existsb isSuccessToast issued /\
    (fst out = Resolved tt -> length (filter isWrite issued) = 1%nat).
Proof.
  cbv zeta.
  mutation_paths remote user name userId;
    (eexists; split; [flatten_trace; reflexivity|]);
    cbn [filter isToast isStoreRequest isWrite existsb isSuccessToast isInvalidation
         toast_title successToast errorToast length String.eqb Ascii.eqb Bool.eqb orb];
    repeat split; try reflexivity; try lia; try discriminate;
    try (intros H; discriminate H).
Qed.

Lemma mutation_notifies_exactly_once_witness :
  let out := runMutation sampleRemote (Some (mkUser "1")) "" (BanUser "") "2"
                         emptyState in
  fst out = Resolved tt /\
  exists issued,
    trace (snd out) = [] ++ issued /\
    length (filter isToast issued) = 1%nat /\
    length (filter isWrite issued) = 1%nat.
Proof.
  intros out.
  assert (Hok : fst out = Resolved tt) by reflexivity.
  split; [exact Hok|].
  destruct (mutation_notifies_exactly_once
              sampleRemote (Some (mkUser "1")) "" (BanUser "") "2" emptyState)
    as (issued & Htrace & Htoast & _ & _ & _ & _ & Hwrite).
  exists issued. split; [exact Htrace|]. split; [exact Htoast | exact (Hwrite Hok)].
Defined.

(** X16 — Without a session every mutation rejects with the missing-session
    error: nothing is sent to the store, the cache is left as it was, and
    the one notification is the failure one carrying that message. *)
Theorem mutation_without_session_writes_nothing
        (remote : Remote) (user : option UnifiedUser) (searchTerm : string)
        (name : MutationName) (userId : string) (st : State)
        (Hnone : session remote = None) :
  let out := runMutation remote user searchTerm name userId st in
  fst out = Rejected (Error "No authenticated session found") /\
  cache (snd out) = cache st /\
  exists issued,
    trace (snd out) = trace st ++ issued /\
    filter isStoreRequest issued = [] /\
    filter isInvalidation issued = [] /\
    filter isToast issued = [Toast (errorToast "No authenticated session found")].
Proof.
  cbv zeta.
  destruct name as [| |reason|]; cbn [runMutation]; run; rewrite Hnone;
    cbn [fst snd cache trace];
    (split; [reflexivity | split; [reflexivity |]]);
    (eexists; split; [flatten_trace; reflexivity|]); repeat split.
Qed.

Lemma mutation_without_session_writes_nothing_witness :
  session noSessionRemote = None /\
  fst (runMutation noSessionRemote (Some (mkUser "1")) "" MakeAdmin "2" emptyState) =
    Rejected (Error "No authenticated session found").
Proof.
  split; [reflexivity|].
  exact (proj1 (mutation_without_session_writes_nothing
                  noSessionRemote (Some (mkUser "1")) "" MakeAdmin "2" emptyState
                  eq_refl)).
Defined.

Lemma strictEq_spec (s : string) (o : option string) :
  strictEq s o = true <-> o = Some s.
Proof.
  destruct o as [t|]; cbn [strictEq]; [|split; discriminate].
  rewrite String.eqb_eq. split; [now intros -> | now intros [= ->]].
Qed.

(** X17 — With a session, the ban mutation sends a ban insert exactly when the
    target is not the caller's own id; the insert it sends is for the
    target, names the caller as the banning actor, is active, and carries
    the given reason, or the default reason when the given one is empty. *)
Theorem ban_insert_iff_not_self
        (remote : Remote) (user : option UnifiedUser) (searchTerm : string)
        (target reason : string) (st : State)
        (Hsession : session remote <> None) :
  exists issued,
    trace (snd (banUserMutation remote user searchTerm (target, reason) st)) =
      trace st ++ issued /\
    (existsb isBanInsert issued = true <-> callerId user <> Some target) /\
    filter isStoreRequest issued =
      (if existsb isBanInsert issued
       then [Query (InsertBan target (callerId user)
                              (if (reason =? "")%string
                               then "No reason provided" else reason) true)]
       else []).
Proof.
  run. destruct (session remote) as [s|]; [|contradiction].
  pose proof (strictEq_spec target (callerId user)) as Hspec.
  destruct (strictEq target (callerId user)); cbn [fst snd cache trace js_or_string].
  - eexists. split; [flatten_trace; reflexivity|].
    split; [|reflexivity]. cbn. split; [discriminate|].
    intros Hne. exfalso. apply Hne. now apply Hspec.
  - destruct (writeError remote) as [e|]; cbn [fst snd cache trace];
      destruct user as [u|]; cbn [fst snd cache trace];
      (eexists; split; [flatten_trace; reflexivity|]);
      (split; [|reflexivity]); cbn; (split; [|reflexivity]);
      intros _ Heq; apply Hspec in Heq; discriminate Heq.
Qed.

Lemma ban_insert_iff_not_self_witness :
  session sampleRemote <> None /\
  exists issued,
    trace (snd (banUserMutation sampleRemote (Some (mkUser "1")) "" ("2", "spam")
                                emptyState)) = [] ++ issued /\
    filter isStoreRequest issued = [Query (InsertBan "2" (Some "1") "spam" true)].
Proof.
  assert (Hs : session sampleRemote <> None) by discriminate.
  split; [exact Hs|].
  destruct (ban_insert_iff_not_self sampleRemote (Some (mkUser "1")) "" "2" "spam"
                                    emptyState Hs)
    as (issued & Htrace & Hiff & Hreq).
  exists issued. split; [exact Htrace|].
  assert (Hins : existsb isBanInsert issued = true)
    by (apply Hiff; discriminate).
  rewrite Hins in Hreq. exact Hreq.
Defined.

(** *** What a merged record holds *)

Lemma in_filtered {A : Type} (key : A -> string) (id : string)
      (rows : option (list A)) (r : A) :
  In r (match rows with
        | Some l => filter (fun x => (key x =? id)%string) l
        | None => []
        end) <->
  In r (match rows with Some l => l | None => [] end) /\ key r = id.
Proof.
  destruct rows as [l|]; [|cbn [In]; tauto].
  rewrite filter_In, String.eqb_eq. tauto.
Qed.

(** X13 — Whatever the satellite reads answered, a record of the fetched list
    holds only rows of its own profile, and all of them: a row of a
    satellite read is in the record's collection exactly when its user_id is
    the record's profile id, and the record's ban, if any, is a row of the
    ban read with that user_id. *)
Theorem merged_record_holds_its_own_rows
        (remote : Remote) (user : option UnifiedUser) (searchTerm : string)
        (st : State) (merged : list MergedUser) (u : MergedUser)
        (Hrun : fst (queryFn remote user searchTerm st) = Resolved merged)
        (Hin : In u merged) :
  In (profile u) (rowsOf (profilesResp remote)) /\
  (forall r, In r (user_roles u) <->
             In r (rowsOf (rolesResp remote)) /\
             role_user_id r = profile_id (profile u)) /\
  (forall r, In r (user_credits u) <->
             In r (rowsOf (creditsResp remote)) /\
             credit_user_id r = profile_id (profile u)) /\
  (forall r, In r (social_accounts u) <->
             In r (rowsOf (socialResp remote)) /\
             social_user_id r = profile_id (profile u)) /\
  (forall r, In r (wallets u) <->
             In r (rowsOf (walletsResp remote)) /\
             wallet_user_id r = profile_id (profile u)) /\
  (forall b, ban_info u = Some b ->
             In b (rowsOf (bansResp remote)) /\
             ban_user_id b = profile_id (profile u)).
Proof.
  assert (Hshape :
            merged = [] \/
            merged = map (merge (data (rolesResp remote)) (data (creditsResp remote))
                                (data (socialResp remote)) (data (walletsResp remote))
                                (data (bansResp remote)))
                         (rowsOf (profilesResp remote))).
  { destruct (session remote) as [s|] eqn:Hs.
    - destruct (error (profilesResp remote)) as [e|] eqn:He.
      + revert Hrun. run. rewrite Hs, He. discriminate.
      + right.
        destruct (queryFn_resolves remote user searchTerm st) as [Hres _];
          [congruence | exact He |].
        rewrite Hres in Hrun. now injection Hrun as <-.
    - revert Hrun. run. rewrite Hs. discriminate. }
  destruct Hshape as [-> | ->]; [destruct Hin|].
  apply in_map_iff in Hin. destruct Hin as (p & <- & Hp).
  unfold merge, rowsOf. cbn [profile user_roles user_credits social_accounts
                             wallets ban_info].
  split; [exact Hp|].
  split; [intros r; apply (in_filtered role_user_id)|].
  split; [intros r; apply (in_filtered credit_user_id)|].
  split; [intros r; apply (in_filtered social_user_id)|].
  split; [intros r; apply (in_filtered wallet_user_id)|].
  intros b Hb.
  destruct (data (bansResp remote)) as [rows|]; [|discriminate Hb].
  apply find_some in Hb. destruct Hb as [Hb Hid].
  split; [exact Hb | now apply String.eqb_eq in Hid].
Qed.

Lemma merged_record_holds_its_own_rows_witness :
  let merged := map (joinProfile [mkRole "1" "admin"] [mkCredit "2" 50] [] [] [])
                    [profile1; profile2] in
  let u := joinProfile [mkRole "1" "admin"] [mkCredit "2" 50] [] [] [] profile2 in
  fst (queryFn sampleRemote None "" emptyState) = Resolved merged /\
  In u merged /\
  (forall r, In r (user_roles u) <->
             In r [mkRole "1" "admin"] /\ role_user_id r = "2").
Proof.
  intros merged u.
  assert (Hrun : fst (queryFn sampleRemote None "" emptyState) = Resolved merged)
    by reflexivity.
  assert (Hin : In u merged) by (right; left; reflexivity).
  split; [exact Hrun | split; [exact Hin |]].
  exact (proj1 (proj2 (merged_record_holds_its_own_rows
                         sampleRemote None "" emptyState merged u Hrun Hin))).
Defined.

End DirectoryExtras.
